(** * Bank statement parser API: validators and request handlers

    A shallow embedding of [main.py].  Python [str] values are sequences of
    Unicode code points; Python values that travel through JSON are the
    constructors of [pyval]; exceptions are an explicit [result]; the file
    system and the interpreter service are threaded as a [world]. *)

From Stdlib Require Import ZArith Ascii String SpecFloat Lia.
From stdpp Require Import base list gmap.

Local Open Scope Z_scope.
#[local] Set Warnings "-register-all".

(** ** Python strings *)

Abbreviation codepoint := Z.
Abbreviation pystr := (list Z).

(** An ASCII literal of the source, as a Python [str]. *)
Definition py (s : string) : pystr :=
  (fun a => Z.of_nat (nat_of_ascii a)) <$> list_ascii_of_string s.

Definition in_range (lo hi c : Z) : bool := (lo <=? c) && (c <=? hi).

(** First code point of every run of ten decimal digits (general category
    Nd, Unicode 14.0): the characters that [\d] matches in a [str] pattern. *)
Definition unicode_decimal_zeros : list Z :=
  [ 0x30; 0x660; 0x6f0; 0x7c0; 0x966; 0x9e6; 0xa66; 0xae6; 0xb66; 0xbe6;
    0xc66; 0xce6; 0xd66; 0xde6; 0xe50; 0xed0; 0xf20; 0x1040; 0x1090;
    0x17e0; 0x1810; 0x1946; 0x19d0; 0x1a80; 0x1a90; 0x1b50; 0x1bb0;
    0x1c40; 0x1c50; 0xa620; 0xa8d0; 0xa900; 0xa9d0; 0xa9f0; 0xaa50;
    0xabf0; 0xff10; 0x104a0; 0x10d30; 0x11066; 0x110f0; 0x11136; 0x111d0;
    0x112f0; 0x11450; 0x114d0; 0x11650; 0x116c0; 0x11730; 0x118e0;
    0x11950; 0x11c50; 0x11d50; 0x11da0; 0x16a60; 0x16ac0; 0x16b50;
    0x1d7ce; 0x1d7d8; 0x1d7e2; 0x1d7ec; 0x1d7f6; 0x1e140; 0x1e2f0;
    0x1e950; 0x1fbf0 ].

Definition is_decimal (c : codepoint) : bool :=
  existsb (fun z => in_range z (z + 9) c) unicode_decimal_zeros.

Definition is_ascii_digit (c : codepoint) : bool := in_range 0x30 0x39 c.

(** [str.isspace] on one code point: what [str.strip()] removes. *)
Definition py_isspace (c : codepoint) : bool :=
  in_range 0x09 0x0d c || in_range 0x1c 0x20 c || (c =? 0x85) || (c =? 0xa0)
  || (c =? 0x1680) || in_range 0x2000 0x200a c || (c =? 0x2028)
  || (c =? 0x2029) || (c =? 0x202f) || (c =? 0x205f) || (c =? 0x3000).

Fixpoint lstrip_by (p : codepoint -> bool) (s : pystr) : pystr :=
  match s with
  | c :: t => if p c then lstrip_by p t else s
  | [] => []
  end.

Fixpoint rstrip_by (p : codepoint -> bool) (s : pystr) : pystr :=
  match s with
  | c :: t =>
      match rstrip_by p t with
      | [] => if p c then [] else [c]
      | t' => c :: t'
      end
  | [] => []
  end.

Definition strip_by (p : codepoint -> bool) (s : pystr) : pystr :=
  rstrip_by p (lstrip_by p s).

(** [s.strip()] *)
Definition str_strip (s : pystr) : pystr := strip_by py_isspace s.

Fixpoint starts_with (p s : pystr) : bool :=
  match p, s with
  | [], _ => true
  | a :: p', b :: s' => (a =? b) && starts_with p' s'
  | _ :: _, [] => false
  end.

(** Left-to-right scan of [s.replace(old, new)] for a non-empty [old];
    [skip] counts the code points of the current occurrence still to drop. *)
Fixpoint replace_scan (old new : pystr) (skip : nat) (s : pystr) : pystr :=
  match s with
  | [] => []
  | c :: t =>
      match skip with
      | S k => replace_scan old new k t
      | O =>
          if starts_with old s
          then new ++ replace_scan old new (length old - 1)%nat t
          else c :: replace_scan old new 0 t
      end
  end.

(** [s.replace(old, new)]; an empty [old] matches between all code points. *)
Definition str_replace (old new s : pystr) : pystr :=
  match old with
  | [] => new ++ concat ((fun c => c :: new) <$> s)
  | _ :: _ => replace_scan old new 0 s
  end.

(** The split point of [s.rsplit(sep, 1)] for a one-character [sep]:
    the text before and after the last occurrence. *)
Fixpoint rsplit_last (sep : codepoint) (s : pystr) : option (pystr * pystr) :=
  match s with
  | [] => None
  | c :: t =>
      match rsplit_last sep t with
      | Some (a, b) => Some (c :: a, b)
      | None => if c =? sep then Some ([], t) else None
      end
  end.

(** [s.rsplit(sep, 1)] *)
Definition str_rsplit1 (sep : codepoint) (s : pystr) : list pystr :=
  match rsplit_last sep s with
  | Some (a, b) => [a; b]
  | None => [s]
  end.

(** [sep in s] for a one-character [sep]. *)
Definition str_contains (sep : codepoint) (s : pystr) : bool :=
  existsb (Z.eqb sep) s.

Definition is_ascii (c : codepoint) : bool := in_range 0 127 c.

Definition ascii_lower (c : codepoint) : codepoint :=
  if in_range 0x41 0x5a c then c + 32 else c.

(** [s.lower()]: on ASCII text the letters A-Z move to a-z; any other text
    goes through the interpreter's Unicode case mapping [unicode_lower]. *)
Definition str_lower (unicode_lower : pystr -> pystr) (s : pystr) : pystr :=
  if forallb is_ascii s then ascii_lower <$> s else unicode_lower s.

(** ** Python values and exceptions *)

Inductive pyval :=
  | PNone
  | PBool (b : bool)
  | PInt (n : Z)
  | PFloat (f : spec_float)
  | PStr (s : pystr)
  | PList (l : list pyval)
  | PDict (d : list (pystr * pyval)).

Inductive exn :=
  | TypeError
  | AttributeError
  | IndexError
  | FileNotFoundError
  | JSONDecodeError (msg : pystr)
  | OtherError (name msg : pystr).

Inductive result (A : Type) :=
  | Ok (a : A)
  | Raise (e : exn).
Arguments Ok {A} a.
Arguments Raise {A} e.

#[global] Instance result_ret : MRet result := fun A a => Ok a.
#[global] Instance result_bind : MBind result := fun A B f r =>
  match r with
  | Ok a => f a
  | Raise e => Raise e
  end.

(** Truth value of an object, as used by [if], [not] and [bool()]. *)
Definition truthy (v : pyval) : bool :=
  match v with
  | PNone => false
  | PBool b => b
  | PInt n => negb (n =? 0)
  | PFloat (S754_zero _) => false
  | PFloat _ => true
  | PStr s => negb (bool_decide (s = []))
  | PList l => match l with [] => false | _ => true end
  | PDict d => match d with [] => false | _ => true end
  end.

Fixpoint assoc_get (k : pystr) (d : list (pystr * pyval)) : option pyval :=
  match d with
  | [] => None
  | (k', v) :: d' => if bool_decide (k = k') then Some v else assoc_get k d'
  end.

(** [obj.get(key, default)]: only a [dict] has the method. *)
Definition py_get (obj : pyval) (key : pystr) (dflt : pyval) : result pyval :=
  match obj with
  | PDict d => Ok (default dflt (assoc_get key d))
  | _ => Raise AttributeError
  end.

(** ** Regular expressions of the [re] module (the fragment the source uses) *)

Inductive regex :=
  | RDigit                          (* \d *)
  | RChar (c : codepoint)           (* a literal character *)
  | RSeq (r1 r2 : regex)            (* r1 r2 *)
  | RRepeat (r : regex) (n : nat).  (* r{n} *)

(** Matching with a continuation: [re_match r s k] holds when [r] matches a
    prefix of [s] and [k] accepts what is left. *)
Fixpoint re_match (r : regex) (s : pystr) (k : pystr -> bool) : bool :=
  match r with
  | RDigit => match s with c :: t => is_decimal c && k t | [] => false end
  | RChar x => match s with c :: t => (c =? x) && k t | [] => false end
  | RSeq r1 r2 => re_match r1 s (fun t => re_match r2 t k)
  | RRepeat r1 n =>
      (fix rep (n : nat) (s : pystr) (k : pystr -> bool) : bool :=
         match n with
         | O => k s
         | S m => re_match r1 s (fun t => rep m t k)
         end) n s k
  end.

Definition at_end (s : pystr) : bool :=
  match s with [] => true | _ :: _ => false end.

(** [re.fullmatch(pattern, string)]: a match object (here the matched text)
    or [None]; anything but a [str] is a [TypeError]. *)
Definition re_fullmatch (r : regex) (v : pyval) : result (option pystr) :=
  match v with
  | PStr s => Ok (if re_match r s at_end then Some s else None)
  | _ => Raise TypeError
  end.

(** [bool(m)] for a match object or [None]. *)
Definition bool_of_match (m : option pystr) : bool :=
  match m with Some _ => true | None => false end.

(** The pattern [\d{8}]. *)
Definition account_pattern : regex := RRepeat RDigit 8.

(** The pattern [\d{2}-\d{2}-\d{2}]. *)
Definition sort_code_pattern : regex :=
  RSeq (RRepeat RDigit 2)
    (RSeq (RChar 0x2d)
       (RSeq (RRepeat RDigit 2)
          (RSeq (RChar 0x2d) (RRepeat RDigit 2)))).

Definition validate_account (acc : pyval) : result bool :=
  m ← re_fullmatch account_pattern acc; mret (bool_of_match m).

Definition validate_sort_code (code : pyval) : result bool :=
  m ← re_fullmatch sort_code_pattern code; mret (bool_of_match m).

(** ** Configuration and [allowed_file] *)

Definition UPLOAD_FOLDER : pystr := py "uploads".

(** 16MB max file size *)
Definition MAX_CONTENT_LENGTH : Z := 16 * 1024 * 1024.
Definition ALLOWED_EXTENSIONS : gset pystr := {[ py "pdf" ]}.

Definition dot : codepoint := 0x2e.

Definition allowed_file (unicode_lower : pystr -> pystr) (filename : pystr)
  : result bool :=
  if str_contains dot filename then
    match str_rsplit1 dot filename !! 1%nat with
    | Some ext =>
        Ok (bool_decide (str_lower unicode_lower ext ∈ ALLOWED_EXTENSIONS))
    | None => Raise IndexError
    end
  else Ok false.

(** ** The collaborators and the world *)

(** What the handlers call but do not define: the interpreter's Unicode
    tables and [str(e)], werkzeug, the disk, pdfplumber, the generative
    model and the [json] module. *)
Record Env := {
  unicode_lower : pystr -> pystr;
  str_exn : exn -> pystr;
  secure_filename : pystr -> pystr;
  (** [file.save(path)] failing *)
  save_error : pystr -> option exn;
  (** [os.remove(path)] failing on a file that exists; the first argument
      numbers the calls of [os.remove], so that a removal can fail once and
      succeed when it is tried again *)
  remove_error : nat -> pystr -> option exn;
  (** [pdfplumber.open] on the stored bytes: the pages, each with the
      outcome of [page.extract_text()] ([None] or a [str]) *)
  pdf_pages : list Z -> result (list (result (option pystr)));
  (** [model.generate_content(prompt).text] *)
  generate_content : pystr -> result pystr;
  (** [json.loads] *)
  json_loads : pystr -> result pyval
}.

Record world := World {
  fs : gmap pystr (list Z);     (* files on disk: path to bytes *)
  prompts : list pystr;         (* prompts sent to the interpreter so far *)
  removals : nat                (* calls of os.remove made so far *)
}.

Definition M (A : Type) : Type := world -> result A * world.

#[global] Instance M_ret : MRet M := fun A a w => (Ok a, w).
#[global] Instance M_bind : MBind M := fun A B f m w =>
  match m w with
  | (Ok a, w') => f a w'
  | (Raise e, w') => (Raise e, w')
  end.

Definition lift {A} (r : result A) : M A := fun w => (r, w).

Definition file_save (E : Env) (path : pystr) (bytes : list Z) : M unit :=
  fun w =>
    match save_error E path with
    | Some e => (Raise e, w)
    | None => (Ok tt, World (<[path := bytes]> (fs w)) (prompts w) (removals w))
    end.

Definition os_path_exists (path : pystr) (w : world) : bool :=
  bool_decide (is_Some (fs w !! path)).

Definition os_remove (E : Env) (path : pystr) : M unit :=
  fun w =>
    let called := World (fs w) (prompts w) (S (removals w)) in
    match fs w !! path with
    | None => (Raise FileNotFoundError, called)
    | Some _ =>
        match remove_error E (removals w) path with
        | Some e => (Raise e, called)
        | None =>
            (Ok tt, World (delete path (fs w)) (prompts w) (S (removals w)))
        end
    end.

(** [os.path.join(a, b)] on a POSIX system. *)
Definition os_path_join (a b : pystr) : pystr :=
  if starts_with (py "/") b then b
  else if bool_decide (a = []) || bool_decide (last a = Some 0x2f) then a ++ b
  else a ++ py "/" ++ b.

Definition nl : pystr := [0x0a].

(** The loop of [extract_text_from_pdf]. *)
Fixpoint extract_pages (pages : list (result (option pystr)))
    (full_text : pystr) : result pystr :=
  match pages with
  | [] => Ok full_text
  | page :: rest =>
      text ← page;
      match text with
      | Some ((_ :: _) as t) => extract_pages rest (full_text ++ t ++ nl)
      | _ => extract_pages rest full_text
      end
  end.

Definition extract_text_from_pdf (E : Env) (pdf_path : pystr) : M pystr :=
  fun w =>
    match fs w !! pdf_path with
    | None => (Raise FileNotFoundError, w)
    | Some bytes => (pages ← pdf_pages E bytes; extract_pages pages [], w)
    end.

(** A double-quoted piece of the prompt template. *)
Definition quoted (s : string) : pystr := [0x22] ++ py s ++ [0x22].

(** The f-string of [extract_bank_data_with_gemini], line by line, up to
    the place where the statement text is spliced in. *)
Definition prompt_lines : list pystr :=
  [ [];
    py "You are an expert UK bank statement parser.";
    py "Extract information from ANY UK bank statement.";
    py "RULES:";
    py "- Account number = 8 digits";
    py "- Sort code format = XX-XX-XX";
    py "- Currency = GBP";
    py "- Identify debit vs credit automatically";
    py "- Return ONLY valid JSON";
    py "- Use null where data is missing";
    py "JSON FORMAT:";
    py "{";
    py "  " ++ quoted "account_number" ++ py ": " ++ quoted EmptyString ++ py ",";
    py "  " ++ quoted "sort_code" ++ py ": " ++ quoted EmptyString ++ py ",";
    py "  " ++ quoted "currency" ++ py ": " ++ quoted "GBP" ++ py ",";
    py "  " ++ quoted "transactions" ++ py ": [";
    py "    {";
    py "      " ++ quoted "date" ++ py ": " ++ quoted EmptyString ++ py ",";
    py "      " ++ quoted "description" ++ py ": " ++ quoted EmptyString ++ py ",";
    py "      " ++ quoted "debit" ++ py ": null,";
    py "      " ++ quoted "credit" ++ py ": null,";
    py "      " ++ quoted "balance" ++ py ": null";
    py "    }";
    py "  ]";
    py "}";
    py "STATEMENT TEXT:" ].

Definition build_prompt (statement_text : pystr) : pystr :=
  concat ((fun l => l ++ nl) <$> prompt_lines) ++ statement_text ++ nl.

Definition extract_bank_data_with_gemini (E : Env) (statement_text : pystr)
  : M pystr :=
  fun w =>
    let prompt := build_prompt statement_text in
    (generate_content E prompt,
     World (fs w) (prompts w ++ [prompt]) (removals w)).

(** ** Requests and responses *)

Record upload := { filename : pystr; content : list Z }.

(** A request.  [files] holds the file fields of the form; the handler
    reaches them through [request_files] below, which enforces the size
    cap.  [get_json] is the outcome of [request.get_json()] as the framework
    gives it, its own failures (no JSON body, a body it refuses) included. *)
Record request := {
  content_length : Z;              (* size of the request body in bytes *)
  files : list (pystr * upload);   (* the file fields of the form *)
  get_json : result pyval          (* request.get_json() *)
}.

(** [werkzeug.exceptions.RequestEntityTooLarge] *)
Definition too_large : exn :=
  OtherError (py "RequestEntityTooLarge")
    (py "413 Request Entity Too Large: The data value transmitted exceeds the capacity limit.").

(** [request.files]: reading the form fails when the body is larger than
    [app.config['MAX_CONTENT_LENGTH']]. *)
Definition request_files (req : request) : result (list (pystr * upload)) :=
  if MAX_CONTENT_LENGTH <? content_length req
  then Raise too_large
  else Ok (files req).

Record response := { body : pyval; status : Z }.

(** [jsonify(obj), code] *)
Definition jsonify (obj : pyval) (code : Z) : response :=
  {| body := obj; status := code |}.

Definition error_body (msg : string) : pyval :=
  PDict [(py "error", PStr (py msg))].

Definition error_details (E : Env) (msg : string) (e : exn) : pyval :=
  PDict [(py "error", PStr (py msg)); (py "details", PStr (str_exn E e))].

Fixpoint files_get (k : pystr) (l : list (pystr * upload)) : option upload :=
  match l with
  | [] => None
  | (k', f) :: l' => if bool_decide (k = k') then Some f else files_get k l'
  end.

(** The two [replace] calls of line 132: delete every [```json], then
    every remaining [```]. *)
Definition remove_fences (s : pystr) : pystr :=
  str_replace (py "```") [] (str_replace (py "```json") [] s).

(** Line 132: strip, then delete the fence markers. *)
Definition clean_output (ai_output : pystr) : pystr :=
  remove_fences (str_strip ai_output).

(** Lines 132-133: clean, then [json.loads]. *)
Definition parse_output (E : Env) (ai_output : pystr) : result pyval :=
  json_loads E (clean_output ai_output).

(** ** [/parse-statement] *)

(** Lines 119-153: the [try] body once [filepath] is bound. *)
Definition parse_body (E : Env) (file : upload) (filepath : pystr)
  : M response :=
  _ ← file_save E filepath (content file);
  statement_text ← extract_text_from_pdf E filepath;
  if negb (truthy (PStr (str_strip statement_text))) then
    _ ← os_remove E filepath;
    mret (jsonify (error_body "Could not extract text from PDF") 400)
  else
    ai_output ← extract_bank_data_with_gemini E statement_text;
    data ← lift (parse_output E ai_output);
    account ← lift (py_get data (py "account_number") (PStr []));
    account_valid ← lift (validate_account account);
    sort_code ← lift (py_get data (py "sort_code") (PStr []));
    sort_code_valid ← lift (validate_sort_code sort_code);
    let response_data :=
      PDict [ (py "success", PBool true);
              (py "data", data);
              (py "validation",
                PDict [ (py "account_number_valid", PBool account_valid);
                        (py "sort_code_valid", PBool sort_code_valid) ]);
              (py "extracted_text_preview", PStr (take 500 statement_text)) ] in
    _ ← os_remove E filepath;
    mret (jsonify response_data 200).

(** Lines 160-168: [except Exception]; [filepath] is [None] when the local
    was not yet bound.  An exception raised here leaves the handler. *)
Definition handle_exception (E : Env) (filepath : option pystr) (e : exn)
  : M response :=
  let resp :=
    jsonify (error_details E "An error occurred while processing the file" e) 500 in
  match filepath with
  | Some path =>
      fun w =>
        if os_path_exists path w
        then (_ ← os_remove E path; mret resp) w
        else (Ok resp, w)
  | None => mret resp
  end.

(** Lines 102-114: the three intake checks on the form's file fields. *)
Definition parse_upload (E : Env) (form : list (pystr * upload)) : M response :=
  fun w =>
    match files_get (py "file") form with
    | None => (Ok (jsonify (error_body "No file provided") 400), w)
    | Some file =>
        if bool_decide (filename file = [])
        then (Ok (jsonify (error_body "No file selected") 400), w)
        else
          match allowed_file (unicode_lower E) (filename file) with
          | Raise e => handle_exception E None e w
          | Ok false =>
              (Ok (jsonify (error_body "Only PDF files are allowed") 400), w)
          | Ok true =>
              let name := secure_filename E (filename file) in
              let filepath := os_path_join UPLOAD_FOLDER name in
              match parse_body E file filepath w with
              | (Ok resp, w') => (Ok resp, w')
              | (Raise (JSONDecodeError _ as e), w') =>
                  (Ok (jsonify
                         (error_details E "Failed to parse AI response as JSON" e)
                         500), w')
              | (Raise e, w') => handle_exception E (Some filepath) e w'
              end
          end
    end.

(** The handler: [request.files] is read first, inside the [try]; when that
    fails no local is bound yet and the [except] clauses answer. *)
Definition parse_statement (E : Env) (req : request) : M response :=
  fun w =>
    match request_files req with
    | Ok form => parse_upload E form w
    | Raise (JSONDecodeError _ as e) =>
        (Ok (jsonify
               (error_details E "Failed to parse AI response as JSON" e)
               500), w)
    | Raise e => handle_exception E None e w
    end.

(** ** [/validate] *)

Definition validate_data (E : Env) (req : request) : response :=
  let attempt : result response :=
    data ← get_json req;
    if negb (truthy data)
    then mret (jsonify (error_body "No JSON data provided") 400)
    else
      account ← py_get data (py "account_number") (PStr []);
      sort_code ← py_get data (py "sort_code") (PStr []);
      account_valid ← validate_account account;
      sort_code_valid ← validate_sort_code sort_code;
      mret (jsonify
              (PDict [ (py "account_number", account);
                       (py "account_valid", PBool account_valid);
                       (py "sort_code", sort_code);
                       (py "sort_code_valid", PBool sort_code_valid) ])
              200) in
  match attempt with
  | Ok resp => resp
  | Raise e => jsonify (error_details E "Validation failed" e) 500
  end.

(** ** The contract of [json.loads] used by the handler

    The handler relies on two facts of the JSON grammar: whitespace around
    a text is insignificant, and an accepted text has nothing but JSON
    whitespace (space, tab, line feed, carriage return) around its value. *)

Definition json_ws (c : codepoint) : bool :=
  (c =? 0x20) || (c =? 0x09) || (c =? 0x0a) || (c =? 0x0d).

(** The value a call produced, if it produced one. *)
Definition parsed {A} (r : result A) : option A :=
  match r with Ok v => Some v | Raise _ => None end.

Record json_loads_contract (loads : pystr -> result pyval) : Prop := {
  loads_ws : forall a s b,
    forallb json_ws a = true -> forallb json_ws b = true ->
    parsed (loads (a ++ s ++ b)) = parsed (loads s);
  loads_margin : forall s v,
    loads s = Ok v -> strip_by json_ws s = str_strip s
}.

(** An interpreter response: the text inside a markdown code fence. *)
Definition fence (j : pystr) : pystr :=
  py "```json" ++ nl ++ j ++ nl ++ py "```".

(** ** Concrete collaborators, for running the handlers *)

(** A loader for the JSON texts [null], [true], [false], [{}] and [[]]. *)
Definition literal_loads (s : pystr) : result pyval :=
  let t := strip_by json_ws s in
  if bool_decide (t = py "null") then Ok PNone
  else if bool_decide (t = py "true") then Ok (PBool true)
  else if bool_decide (t = py "false") then Ok (PBool false)
  else if bool_decide (t = py "{}") then Ok (PDict [])
  else if bool_decide (t = py "[]") then Ok (PList [])
  else Raise (JSONDecodeError (py "Expecting value")).

Definition exn_text (e : exn) : pystr :=
  match e with
  | TypeError => py "TypeError"
  | AttributeError => py "AttributeError"
  | IndexError => py "IndexError"
  | FileNotFoundError => py "FileNotFoundError"
  | JSONDecodeError msg => msg
  | OtherError _ msg => msg
  end.

(** A one-page PDF whose text is its bytes, an interpreter that answers
    [reply], and a disk that refuses the removals listed in [locked]. *)
Definition test_env (reply : pystr) (locked : list pystr) : Env := {|
  unicode_lower := fun s => s;
  str_exn := exn_text;
  secure_filename := fun s => s;
  save_error := fun _ => None;
  remove_error := fun _ p =>
    if bool_decide (p ∈ locked)
    then Some (OtherError (py "PermissionError") (py "Permission denied"))
    else None;
  pdf_pages := fun bytes => Ok [Ok (Some bytes)];
  generate_content := fun _ => Ok reply;
  json_loads := literal_loads
|}.

(** Eight ARABIC-INDIC DIGIT ONE characters. *)
Definition arabic_indic_ones : pystr := replicate 8 0x661.

Definition empty_world : world := World ∅ [] 0.

Definition upload_request (name : pystr) (bytes : list Z) : request :=
  {| content_length := Z.of_nat (length bytes);
     files := [(py "file", {| filename := name; content := bytes |})];
     get_json := Raise (OtherError (py "UnsupportedMediaType") []) |}.

Definition json_request (v : pyval) : request :=
  {| content_length := 0; files := []; get_json := Ok v |}.

(** The same form in a body one byte over the cap. *)
Definition oversize_request (name : pystr) (bytes : list Z) : request :=
  {| content_length := MAX_CONTENT_LENGTH + 1;
     files := [(py "file", {| filename := name; content := bytes |})];
     get_json := Raise (OtherError (py "UnsupportedMediaType") []) |}.

Definition permission_error : exn :=
  OtherError (py "PermissionError") (py "Permission denied").

(** [test_env] on a disk where only the first call of [os.remove] fails. *)
Definition flaky_disk_env (reply : pystr) : Env := {|
  unicode_lower := fun s => s;
  str_exn := exn_text;
  secure_filename := fun s => s;
  save_error := fun _ => None;
  remove_error := fun n _ =>
    match n with O => Some permission_error | S _ => None end;
  pdf_pages := fun bytes => Ok [Ok (Some bytes)];
  generate_content := fun _ => Ok reply;
  json_loads := literal_loads
|}.

(** A PDF upload named [a.pdf] whose single page reads [hello]. *)
Definition pdf_file : upload := {| filename := py "a.pdf"; content := py "hello" |}.
Definition pdf_upload : request := upload_request (py "a.pdf") (py "hello").

(** An upload whose single page holds two spaces. *)
Definition blank_file : upload := {| filename := py "a.pdf"; content := py "  " |}.
Definition blank_upload : request := upload_request (py "a.pdf") (py "  ").

(** The interpreter answers with a fenced empty object. *)
Definition fenced_reply_env : Env := test_env (fence (py "{}")) [].

Definition success_answer : response :=
  jsonify
    (PDict [ (py "success", PBool true);
             (py "data", PDict []);
             (py "validation",
               PDict [ (py "account_number_valid", PBool false);
                       (py "sort_code_valid", PBool false) ]);
             (py "extracted_text_preview", PStr (py "hello" ++ nl)) ])
    200.

Definition world_after_success : world :=
  World ∅ [build_prompt (py "hello" ++ nl)] 1.

(** The interpreter did what the prompt asks for missing data: both fields
    are [null]. *)
Definition null_fields : pyval :=
  PDict [(py "account_number", PNone); (py "sort_code", PNone)].

Definition null_fields_env : Env := {|
  unicode_lower := fun s => s;
  str_exn := exn_text;
  secure_filename := fun s => s;
  save_error := fun _ => None;
  remove_error := fun _ _ => None;
  pdf_pages := fun bytes => Ok [Ok (Some bytes)];
  generate_content := fun _ => Ok [];
  json_loads := fun _ => Ok null_fields
|}.

(** ** Vocabulary of the statements *)

(** The shape [DD-DD-DD], each [D] a character that [\d] matches. *)
Definition sort_code_shape (s : pystr) : Prop :=
  exists a b c d e f,
    s = [a; b; 0x2d; c; d; 0x2d; e; f]
    /\ forallb is_decimal [a; b; c; d; e; f] = true.

(** The shape [DD-DD-DD] with every [D] one of the ASCII digits 0-9. *)
Definition is_ascii_sort_code (s : pystr) : bool :=
  match s with
  | [a; b; h1; c; d; h2; e; f] =>
      forallb is_ascii_digit [a; b; c; d; e; f] && (h1 =? 0x2d) && (h2 =? 0x2d)
  | _ => false
  end.

(** [DD-DD-DD] written with ARABIC-INDIC digits one to six. *)
Definition arabic_indic_sort_code : pystr :=
  [0x661; 0x662; 0x2d; 0x663; 0x664; 0x2d; 0x665; 0x666].

(** The text after the last dot, lowercased, is [pdf]. *)
Definition has_pdf_extension (lower : pystr -> pystr) (f : pystr) : Prop :=
  exists stem ext,
    f = stem ++ dot :: ext /\ (dot ∉ ext) /\ str_lower lower ext = py "pdf".

(** The body is within the size cap and the upload passes the three intake
    checks of lines 103-114. *)
Definition accepted (E : Env) (req : request) (file : upload) : Prop :=
  content_length req <= MAX_CONTENT_LENGTH
  /\ files_get (py "file") (files req) = Some file
  /\ filename file <> []
  /\ allowed_file (unicode_lower E) (filename file) = Ok true.

(** Where the handler stores the upload (lines 117-118). *)
Definition temp_path (E : Env) (file : upload) : pystr :=
  os_path_join UPLOAD_FOLDER (secure_filename E (filename file)).

(** ** [/health] *)

Definition health_check : response :=
  jsonify
    (PDict [ (py "status", PStr (py "healthy"));
             (py "message", PStr (py "API is running")) ])
    200.

(** ** Further vocabulary *)

(** What one page adds to the text in [extract_text_from_pdf]. *)
Definition page_line (page : option pystr) : pystr :=
  match page with
  | Some ((_ :: _) as t) => t ++ nl
  | _ => []
  end.

(** A page without text, or with whitespace only. *)
Definition blank_page (page : option pystr) : Prop :=
  forall t, page = Some t -> forallb py_isspace t = true.

Definition backtick : codepoint := 0x60.

(** The value under [k] in a response body. *)
Definition body_get (k : pystr) (resp : response) : option pyval :=
  match body resp with
  | PDict d => assoc_get k d
  | _ => None
  end.

(** The field [k] of a JSON object is absent or a string. *)
Definition str_field (k : pystr) (d : list (pystr * pyval)) : Prop :=
  assoc_get k d = None \/ exists s, assoc_get k d = Some (PStr s).

Definition is_json_error (e : exn) : bool :=
  match e with JSONDecodeError _ => true | _ => false end.

(** The upload was accepted and stored, and its pages gave [text]. *)
Definition stored_text (E : Env) (req : request) (file : upload)
    (text : pystr) : Prop :=
  accepted E req file
  /\ save_error E (temp_path E file) = None
  /\ exists pages,
       pdf_pages E (content file) = Ok pages
       /\ extract_pages pages [] = Ok text.

(** The disk after the upload was stored, and after it was removed again. *)
Definition fs_stored (E : Env) (file : upload) (w : world)
  : gmap pystr (list Z) :=
  <[temp_path E file := content file]> (fs w).

Definition fs_removed (E : Env) (file : upload) (w : world)
  : gmap pystr (list Z) :=
  delete (temp_path E file) (fs_stored E file w).

(** [test_env] with another PDF reader and interpreter. *)
Definition env_with (reader : list Z -> result (list (result (option pystr))))
    (interpreter : pystr -> result pystr) : Env := {|
  unicode_lower := fun s => s;
  str_exn := exn_text;
  secure_filename := fun s => s;
  save_error := fun _ => None;
  remove_error := fun _ _ => None;
  pdf_pages := reader;
  generate_content := interpreter;
  json_loads := literal_loads
|}.

Definition one_page (bytes : list Z) : result (list (result (option pystr))) :=
  Ok [Ok (Some bytes)].

Definition pdf_error : exn :=
  OtherError (py "PDFSyntaxError") (py "No /Root object").

Definition quota_error : exn :=
  OtherError (py "ResourceExhausted") (py "Quota exceeded").

(** A reader that rejects every file, and an interpreter that fails. *)
Definition broken_pdf_env : Env :=
  env_with (fun _ => Raise pdf_error) (fun _ => Ok []).

Definition failing_interpreter_env : Env :=
  env_with one_page (fun _ => Raise quota_error).

(** The interpreter answers with prose, or with a JSON list. *)
Definition prose_reply_env : Env := test_env (py "Sorry, no data.") [].
Definition list_reply_env : Env := test_env (py "[]") [].

Definition hello_text : pystr := py "hello" ++ nl.

(** [sub in s] for strings. *)
Fixpoint str_has (sub s : pystr) : bool :=
  match s with
  | [] => starts_with sub []
  | _ :: t => starts_with sub s || str_has sub t
  end.

(** * Properties *)

(** ** Regular expressions and the validators *)

Lemma at_end_true s : at_end s = true <-> s = [].
Proof. destruct s; simpl; split; congruence. Qed.

Lemma re_match_repeat_step r n s k :
  re_match (RRepeat r (S n)) s k
  = re_match r s (fun t => re_match (RRepeat r n) t k).
Proof. reflexivity. Qed.

Lemma re_match_digit_cons c s k :
  re_match RDigit (c :: s) k = is_decimal c && k s.
Proof. reflexivity. Qed.

(** [\d{n}] consumes exactly [n] decimal digits. *)
Lemma re_match_digits n s k :
  re_match (RRepeat RDigit n) s k = true <->
  exists d t, s = d ++ t /\ length d = n
              /\ forallb is_decimal d = true /\ k t = true.
Proof.
  revert s k. induction n as [|n IH]; intros s k.
  - simpl. split.
    + intros H. exists [], s. auto.
    + intros (d & t & -> & Hl & _ & Hk). destruct d; [assumption | discriminate].
  - rewrite re_match_repeat_step. destruct s as [|c s].
    + split; [discriminate|].
      intros (d & t & Hs & Hl & _). destruct d; discriminate.
    + rewrite re_match_digit_cons, andb_true_iff, IH. split.
      * intros (Hc & d & t & -> & Hl & Hd & Hk).
        exists (c :: d), t. simpl. rewrite Hc, Hd. auto.
      * intros (d & t & Hs & Hl & Hd & Hk).
        destruct d as [|c' d]; [discriminate|].
        simpl in Hs, Hl, Hd. injection Hs as -> ->.
        apply andb_true_iff in Hd as [Hc Hd].
        split; [assumption|]. exists d, t. auto.
Qed.

Lemma re_match_char x s k :
  re_match (RChar x) s k = true <-> exists t, s = x :: t /\ k t = true.
Proof.
  simpl. destruct s as [|c s].
  - split; [discriminate | intros (t & Hs & _); discriminate].
  - rewrite andb_true_iff, Z.eqb_eq. split.
    + intros [-> Hk]. eauto.
    + intros (t & Hs & Hk). injection Hs as -> ->. auto.
Qed.

Lemma ascii_digit_is_decimal c : is_ascii_digit c = true -> is_decimal c = true.
Proof.
  unfold is_ascii_digit, is_decimal. intros H.
  unfold unicode_decimal_zeros. simpl existsb.
  change (0x30 + 9) with 0x39. rewrite H. reflexivity.
Qed.

Lemma account_match s :
  re_match account_pattern s at_end = true <->
  length s = 8%nat /\ forallb is_decimal s = true.
Proof.
  unfold account_pattern. rewrite re_match_digits. split.
  - intros (d & t & -> & Hl & Hd & Ht). apply at_end_true in Ht as ->.
    rewrite app_nil_r. auto.
  - intros [Hl Hd]. exists s, []. rewrite app_nil_r. auto.
Qed.

Lemma two_digits d :
  length d = 2%nat -> forallb is_decimal d = true ->
  exists a b, d = [a; b] /\ is_decimal a = true /\ is_decimal b = true.
Proof.
  destruct d as [|a [|b [|? ?]]]; try discriminate. simpl.
  intros _ H. apply andb_true_iff in H as [Ha H].
  apply andb_true_iff in H as [Hb _]. eauto.
Qed.

Lemma re_match_seq r1 r2 s k :
  re_match (RSeq r1 r2) s k = re_match r1 s (fun t => re_match r2 t k).
Proof. reflexivity. Qed.

Lemma sort_code_match s :
  re_match sort_code_pattern s at_end = true <-> sort_code_shape s.
Proof.
  unfold sort_code_pattern, sort_code_shape.
  rewrite re_match_seq, re_match_digits. split.
  - intros (d1 & t1 & -> & Hl1 & Hd1 & H).
    rewrite re_match_seq in H. apply re_match_char in H as (t2 & -> & H).
    rewrite re_match_seq in H.
    apply re_match_digits in H as (d2 & t3 & -> & Hl2 & Hd2 & H).
    rewrite re_match_seq in H. apply re_match_char in H as (t4 & -> & H).
    apply re_match_digits in H as (d3 & t5 & -> & Hl3 & Hd3 & H).
    apply at_end_true in H as ->.
    destruct (two_digits d1 Hl1 Hd1) as (a & b & -> & Ha & Hb).
    destruct (two_digits d2 Hl2 Hd2) as (c & d & -> & Hc & Hd).
    destruct (two_digits d3 Hl3 Hd3) as (e & f & -> & He & Hf).
    exists a, b, c, d, e, f. simpl.
    rewrite Ha, Hb, Hc, Hd, He, Hf. auto.
  - intros (a & b & c & d & e & f & -> & H).
    simpl in H. repeat (apply andb_true_iff in H as [? H]).
    exists [a; b], [0x2d; c; d; 0x2d; e; f].
    repeat split; [simpl; rewrite H0, H1; reflexivity|].
    rewrite re_match_seq. apply re_match_char.
    eexists. split; [reflexivity|].
    rewrite re_match_seq. apply re_match_digits.
    exists [c; d], [0x2d; e; f].
    repeat split; [simpl; rewrite H2, H3; reflexivity|].
    rewrite re_match_seq. apply re_match_char.
    eexists. split; [reflexivity|].
    apply re_match_digits. exists [e; f], [].
    repeat split. simpl. rewrite H4, H5. reflexivity.
Qed.

Lemma validate_account_str s :
  validate_account (PStr s) = Ok (re_match account_pattern s at_end).
Proof.
  cbv [validate_account re_fullmatch mbind result_bind mret result_ret].
  destruct (re_match account_pattern s at_end); reflexivity.
Qed.

Lemma validate_sort_code_str s :
  validate_sort_code (PStr s) = Ok (re_match sort_code_pattern s at_end).
Proof.
  cbv [validate_sort_code re_fullmatch mbind result_bind mret result_ret].
  destruct (re_match sort_code_pattern s at_end); reflexivity.
Qed.

(** On every [str] both validators return a boolean. *)
Lemma validators_total_on_str s :
  (exists b, validate_account (PStr s) = Ok b)
  /\ (exists b, validate_sort_code (PStr s) = Ok b).
Proof.
  rewrite validate_account_str, validate_sort_code_str. eauto.
Qed.

Lemma validate_empty_string :
  validate_account (PStr []) = Ok false
  /\ validate_sort_code (PStr []) = Ok false.
Proof. split; reflexivity. Qed.

(** C1, as stated, fails: eight ARABIC-INDIC DIGIT ONE characters are not
    ASCII digits, yet [validate_account] accepts them, because [\d] matches
    every Unicode decimal digit. *)
Lemma validate_account_accepts_non_ascii_digits :
  validate_account (PStr arabic_indic_ones) = Ok true
  /\ length arabic_indic_ones = 8%nat
  /\ forallb is_ascii_digit arabic_indic_ones = false.
Proof. repeat split; vm_compute; reflexivity. Qed.

(** C1, amended: [validate_account] returns a boolean on every string, and
    it is true exactly when the string consists of eight characters that are
    all Unicode decimal digits (category Nd, the ASCII digits among them);
    a string of another length or with a non-digit gives false. *)
Theorem validate_account_spec (s : pystr) :
  exists b, validate_account (PStr s) = Ok b
    /\ (b = true <-> length s = 8%nat /\ forallb is_decimal s = true)
    /\ implb (forallb is_ascii_digit s && (length s =? 8)%nat) b = true.
Proof.
  rewrite validate_account_str. eexists. split; [reflexivity|]. split.
  - apply account_match.
  - destruct (forallb is_ascii_digit s) eqn:Ha; [|reflexivity].
    destruct (length s =? 8)%nat eqn:Hl; [|reflexivity]. simpl.
    apply account_match. split; [by apply Nat.eqb_eq|].
    apply forallb_forall. intros c Hc. apply ascii_digit_is_decimal.
    rewrite forallb_forall in Ha. auto.
Qed.

(** C2, as stated, fails for the digits 0-9 the specification means: a
    sort code written with ARABIC-INDIC digits has the hyphens in place but
    no ASCII digit, and [validate_sort_code] accepts it, because [\d]
    matches every Unicode decimal digit. *)
Lemma validate_sort_code_accepts_non_ascii_digits :
  validate_sort_code (PStr arabic_indic_sort_code) = Ok true
  /\ is_ascii_sort_code arabic_indic_sort_code = false
  /\ forallb is_ascii_digit [0x661; 0x662; 0x663; 0x664; 0x665; 0x666] = false.
Proof. repeat split; vm_compute; reflexivity. Qed.

Lemma ascii_sort_code_shape s :
  is_ascii_sort_code s = true -> sort_code_shape s.
Proof.
  destruct s as [|a [|b [|h1 [|c [|d [|h2 [|e [|f [|? ?]]]]]]]]];
    try discriminate.
  unfold is_ascii_sort_code. intros H.
  apply andb_true_iff in H as [H H2]. apply andb_true_iff in H as [H H1].
  apply Z.eqb_eq in H1 as ->. apply Z.eqb_eq in H2 as ->.
  exists a, b, c, d, e, f. split; [reflexivity|].
  apply forallb_forall. intros x Hx. apply ascii_digit_is_decimal.
  rewrite forallb_forall in H. auto.
Qed.

(** C2, amended: [validate_sort_code] returns a boolean on every string, and
    it is true exactly when the string is two decimal digits, a hyphen, two
    decimal digits, a hyphen and two decimal digits, with nothing before,
    between or after, where a decimal digit is any character [\d] matches
    (Unicode category Nd); every such string written with the ASCII digits
    0-9 is among them. *)
Theorem validate_sort_code_spec (s : pystr) :
  exists b, validate_sort_code (PStr s) = Ok b
    /\ (b = true <-> sort_code_shape s)
    /\ implb (is_ascii_sort_code s) b = true.
Proof.
  rewrite validate_sort_code_str. eexists. split; [reflexivity|]. split.
  - apply sort_code_match.
  - destruct (is_ascii_sort_code s) eqn:Ha; [|reflexivity]. simpl.
    by apply sort_code_match, ascii_sort_code_shape.
Qed.

Lemma validate_sort_code_examples :
  validate_sort_code (PStr (py "12-34-56")) = Ok true
  /\ validate_sort_code (PStr (py "123-4-56")) = Ok false
  /\ validate_sort_code (PStr (py "12/34/56")) = Ok false
  /\ validate_sort_code (PStr (py "123456")) = Ok false
  /\ validate_sort_code (PStr (py "12-34-56 ")) = Ok false.
Proof. repeat split; vm_compute; reflexivity. Qed.

(** C3, at the failing input: [None] is not treated as the empty string.
    Both validators raise [TypeError] on it; [/validate] with a body whose
    [account_number] is [null] answers 500, and so does [/parse-statement]
    when the parsed reply has [null] for the two fields. *)
Theorem validators_raise_on_none (E : Env) :
  validate_account PNone = Raise TypeError
  /\ validate_sort_code PNone = Raise TypeError
  /\ validate_data E (json_request (PDict [(py "account_number", PNone)]))
     = jsonify (error_details E "Validation failed" TypeError) 500
  /\ exists w',
       parse_statement null_fields_env pdf_upload empty_world
       = (Ok (jsonify
                (error_details null_fields_env
                   "An error occurred while processing the file" TypeError)
                500), w').
Proof.
  do 3 (split; [reflexivity|]). eexists. vm_compute. reflexivity.
Qed.

(** ** [allowed_file] *)

Lemma str_contains_elem c s : str_contains c s = true <-> c ∈ s.
Proof.
  unfold str_contains. induction s as [|x s IH]; simpl.
  - split; [discriminate | intros H; inversion H].
  - rewrite orb_true_iff, IH, Z.eqb_eq, elem_of_cons. reflexivity.
Qed.

Lemma str_contains_false c s : str_contains c s = false <-> c ∉ s.
Proof.
  rewrite <- str_contains_elem. destruct (str_contains c s); split; congruence.
Qed.

Lemma rsplit_last_none sep s :
  rsplit_last sep s = None <-> str_contains sep s = false.
Proof.
  induction s as [|c s IH]; simpl; [tauto|].
  unfold str_contains in *. simpl.
  destruct (rsplit_last sep s) as [[a b]|].
  - split; [discriminate|]. intros H. apply orb_false_iff in H as [_ H].
    apply IH in H. discriminate.
  - rewrite (Z.eqb_sym sep c). destruct (c =? sep); simpl.
    + split; discriminate.
    + split; [intros _; by apply IH | reflexivity].
Qed.

Lemma rsplit_last_some sep s a b :
  rsplit_last sep s = Some (a, b) <-> s = a ++ sep :: b /\ sep ∉ b.
Proof.
  revert a. induction s as [|c s IH]; intros a; simpl.
  - split; [discriminate|]. intros [H _]. destruct a; discriminate.
  - destruct (rsplit_last sep s) as [[a' b']|] eqn:Hr.
    + split.
      * intros [= <- <-]. destruct (proj1 (IH a') eq_refl) as [-> Hb]. auto.
      * intros [Hs Hb]. destruct a as [|x a].
        -- simpl in Hs. injection Hs as -> ->.
           rewrite (proj2 (rsplit_last_none sep b)) in Hr; [discriminate|].
           by apply str_contains_false.
        -- simpl in Hs. injection Hs as -> Hs.
           assert (Some (a', b') = Some (a, b)) as [= -> ->]; [|reflexivity].
           apply IH. auto.
    + apply rsplit_last_none, str_contains_false in Hr.
      destruct (Z.eqb_spec c sep) as [->|Hne].
      * split.
        -- intros [= <- <-]. auto.
        -- intros [Hs Hb]. destruct a as [|x a].
           ++ simpl in Hs. by injection Hs as ->.
           ++ simpl in Hs. injection Hs as -> ->. exfalso. apply Hr.
              apply elem_of_app. right. left.
      * split; [discriminate|]. intros [Hs Hb]. destruct a as [|x a].
        -- simpl in Hs. injection Hs as -> _. congruence.
        -- simpl in Hs. injection Hs as -> ->. exfalso. apply Hr.
           apply elem_of_app. right. left.
Qed.

Lemma allowed_file_characterisation lower f :
  exists b, allowed_file lower f = Ok b
    /\ (b = true <-> has_pdf_extension lower f).
Proof.
  unfold allowed_file, str_rsplit1, has_pdf_extension.
  destruct (str_contains dot f) eqn:Hc.
  - destruct (rsplit_last dot f) as [[a b]|] eqn:Hr.
    + simpl. eexists. split; [reflexivity|].
      apply rsplit_last_some in Hr as [-> Hb].
      rewrite bool_decide_eq_true. unfold ALLOWED_EXTENSIONS.
      rewrite elem_of_singleton. split.
      * intros H. exists a, b. auto.
      * intros (stem & ext & Hs & Hd & Hl).
        assert (Some (a, b) = Some (stem, ext)) as [= -> ->]; [|assumption].
        rewrite <- (proj2 (rsplit_last_some dot (a ++ dot :: b) a b)) by auto.
        apply rsplit_last_some. auto.
    + apply rsplit_last_none in Hr. congruence.
  - exists false. split; [reflexivity|]. split; [discriminate|].
    intros (stem & ext & -> & _). apply str_contains_false in Hc.
    exfalso. apply Hc. apply elem_of_app. right. left.
Qed.

(** C10: [allowed_file] returns a boolean for every filename, true exactly
    when the name contains a dot and the text after its last dot,
    lowercased, is [pdf]; so [pdf] is rejected while [a.PDF] and [.pdf] are
    accepted. *)
Theorem allowed_file_spec (lower : pystr -> pystr) (f : pystr) :
  (exists b, allowed_file lower f = Ok b
     /\ (b = true <->
         dot ∈ f /\ exists stem ext,
           f = stem ++ dot :: ext /\ (dot ∉ ext)
           /\ str_lower lower ext = py "pdf"))
  /\ allowed_file lower (py "pdf") = Ok false
  /\ allowed_file lower (py "a.PDF") = Ok true
  /\ allowed_file lower (py "a.Pdf") = Ok true
  /\ allowed_file lower (py ".pdf") = Ok true.
Proof.
  split; [|repeat split; vm_compute; reflexivity].
  destruct (allowed_file_characterisation lower f) as (b & Hb & Hiff).
  exists b. split; [assumption|]. rewrite Hiff. unfold has_pdf_extension.
  split.
  - intros (stem & ext & -> & H). split; [|eauto].
    apply elem_of_app. right. left.
  - intros [_ H]. exact H.
Qed.

(** ** [/validate] *)

(** C4, as stated, fails: the body [{}] is falsy, so the guard
    [if not data] answers 400 before any field is read. *)
Lemma validate_empty_object_rejected :
  validate_data (test_env [] []) (json_request (PDict []))
  = jsonify (error_body "No JSON data provided") 400
  /\ status (validate_data (test_env [] []) (json_request (PDict []))) <> 200.
Proof. split; [reflexivity | discriminate]. Qed.

(** C4, amended: for a JSON object with neither [account_number] nor
    [sort_code], [/validate] answers 400 [No JSON data provided] when the
    object is empty, and otherwise 200 with both fields echoed as the empty
    string and both validity booleans false. *)
Theorem validate_data_missing_fields (E : Env) (req : request)
    (d : list (pystr * pyval)) :
  get_json req = Ok (PDict d) ->
  assoc_get (py "account_number") d = None ->
  assoc_get (py "sort_code") d = None ->
  validate_data E req =
    match d with
    | [] => jsonify (error_body "No JSON data provided") 400
    | _ :: _ =>
        jsonify
          (PDict [ (py "account_number", PStr []);
                   (py "account_valid", PBool false);
                   (py "sort_code", PStr []);
                   (py "sort_code_valid", PBool false) ])
          200
    end.
Proof.
  intros Hj Ha Hs. unfold validate_data. rewrite Hj.
  destruct d as [|kv d]; [reflexivity|].
  cbv [mbind result_bind truthy negb py_get].
  rewrite Ha, Hs. reflexivity.
Qed.

Lemma validate_data_missing_fields_witness :
  get_json (json_request (PDict [(py "name", PInt 1)]))
    = Ok (PDict [(py "name", PInt 1)])
  /\ assoc_get (py "account_number") [(py "name", PInt 1)] = None
  /\ assoc_get (py "sort_code") [(py "name", PInt 1)] = None
  /\ validate_data (test_env [] []) (json_request (PDict [(py "name", PInt 1)]))
     = jsonify
         (PDict [ (py "account_number", PStr []);
                  (py "account_valid", PBool false);
                  (py "sort_code", PStr []);
                  (py "sort_code_valid", PBool false) ])
         200.
Proof.
  split; [reflexivity|]. split; [reflexivity|]. split; [reflexivity|].
  apply (validate_data_missing_fields (test_env [] [])
           (json_request (PDict [(py "name", PInt 1)]))
           [(py "name", PInt 1)]); reflexivity.
Defined.

Lemma validate_data_both_valid (E : Env) :
  validate_data E
    (json_request (PDict [ (py "account_number", PStr (py "12345678"));
                           (py "sort_code", PStr (py "11-22-33")) ]))
  = jsonify
      (PDict [ (py "account_number", PStr (py "12345678"));
               (py "account_valid", PBool true);
               (py "sort_code", PStr (py "11-22-33"));
               (py "sort_code_valid", PBool true) ])
      200.
Proof. reflexivity. Qed.

(** ** [/parse-statement]: intake *)

Lemma request_files_ok req :
  content_length req <= MAX_CONTENT_LENGTH -> request_files req = Ok (files req).
Proof.
  intros H. unfold request_files.
  by destruct (Z.ltb_spec MAX_CONTENT_LENGTH (content_length req)); [lia|].
Qed.

Lemma parse_statement_within_cap E req w :
  content_length req <= MAX_CONTENT_LENGTH ->
  parse_statement E req w = parse_upload E (files req) w.
Proof. intros H. unfold parse_statement. by rewrite request_files_ok. Qed.

(** A body over the cap never reaches the intake checks: reading
    [request.files] raises inside the [try], and the generic branch
    answers. *)
Lemma parse_statement_over_cap E req w :
  MAX_CONTENT_LENGTH < content_length req ->
  parse_statement E req w
  = (Ok (jsonify
           (error_details E "An error occurred while processing the file"
              too_large)
           500), w).
Proof.
  intros H. unfold parse_statement, request_files.
  by destruct (Z.ltb_spec MAX_CONTENT_LENGTH (content_length req)); [|lia].
Qed.

Lemma parse_statement_accepted E req file w :
  accepted E req file ->
  parse_statement E req w =
    match parse_body E file (temp_path E file) w with
    | (Ok resp, w') => (Ok resp, w')
    | (Raise (JSONDecodeError _ as e), w') =>
        (Ok (jsonify (error_details E "Failed to parse AI response as JSON" e)
               500), w')
    | (Raise e, w') => handle_exception E (Some (temp_path E file)) e w'
    end.
Proof.
  intros (Hcap & Hf & Hn & Ha).
  rewrite (parse_statement_within_cap E req w Hcap). unfold parse_upload.
  rewrite Hf, bool_decide_eq_false_2 by assumption. rewrite Ha. reflexivity.
Qed.

(** C8, as stated, fails: a request whose body is one byte over the size
    cap and whose file is named [notes.txt] is not answered with 400.
    Reading [request.files] raises inside the [try] and the generic branch
    answers 500. *)
Lemma oversize_bad_upload_gets_500 :
  (exists file,
     files_get (py "file") (files (oversize_request (py "notes.txt") (py "hi")))
       = Some file
     /\ ~ has_pdf_extension (unicode_lower (test_env [] [])) (filename file))
  /\ parse_statement (test_env [] []) (oversize_request (py "notes.txt") (py "hi"))
       empty_world
     = (Ok (jsonify
              (error_details (test_env [] [])
                 "An error occurred while processing the file" too_large)
              500), empty_world)
  /\ status (jsonify
               (error_details (test_env [] [])
                  "An error occurred while processing the file" too_large)
               500) <> 400.
Proof.
  split; [|split; [reflexivity | discriminate]].
  eexists. split; [reflexivity|]. intros Hp.
  destruct (allowed_file_characterisation (fun s => s) (py "notes.txt"))
    as (b & Hb & Hiff).
  apply Hiff in Hp. subst b. vm_compute in Hb. discriminate.
Qed.

(** C8, amended: when the [file] field is missing, its filename is empty,
    or the filename has no [.pdf] extension (in any letter case), the
    handler leaves the world as it was, so no file is written and the
    interpreter is not called; its answer is 400 with an error message when
    the body is within the size cap, and the generic 500 when the body is
    over the cap. *)
Theorem parse_statement_rejects_bad_upload (E : Env) (req : request)
    (w : world) :
  (files_get (py "file") (files req) = None
   \/ exists file, files_get (py "file") (files req) = Some file
        /\ (filename file = []
            \/ ~ has_pdf_extension (unicode_lower E) (filename file))) ->
  exists msg,
    parse_statement E req w
    = (Ok (if MAX_CONTENT_LENGTH <? content_length req
           then jsonify
                  (error_details E "An error occurred while processing the file"
                     too_large)
                  500
           else jsonify (error_body msg) 400),
       w).
Proof.
  intros Hbad.
  destruct (Z.ltb_spec MAX_CONTENT_LENGTH (content_length req)) as [Hover|Hcap].
  { exists EmptyString. by apply parse_statement_over_cap. }
  rewrite (parse_statement_within_cap E req w Hcap). unfold parse_upload.
  destruct Hbad as [Hnone | (file & Hf & Hbad)].
  - rewrite Hnone. eauto.
  - rewrite Hf. case_bool_decide as Hn; [eauto|].
    destruct Hbad as [Hempty | Hext]; [contradiction|].
    destruct (allowed_file_characterisation (unicode_lower E) (filename file))
      as (b & -> & Hb).
    destruct b; [|eauto]. exfalso. apply Hext, Hb. reflexivity.
Qed.

Lemma parse_statement_rejects_bad_upload_witness :
  (files_get (py "file") (files (upload_request (py "notes.txt") (py "hi")))
     = None
   \/ exists file,
        files_get (py "file") (files (upload_request (py "notes.txt") (py "hi")))
          = Some file
        /\ (filename file = []
            \/ ~ has_pdf_extension (unicode_lower (test_env [] []))
                   (filename file)))
  /\ exists msg,
       parse_statement (test_env [] []) (upload_request (py "notes.txt") (py "hi"))
         empty_world
       = (Ok (jsonify (error_body msg) 400), empty_world).
Proof.
  assert (H : files_get (py "file")
                (files (upload_request (py "notes.txt") (py "hi"))) = None
              \/ exists file,
                   files_get (py "file")
                     (files (upload_request (py "notes.txt") (py "hi")))
                     = Some file
                   /\ (filename file = []
                       \/ ~ has_pdf_extension (unicode_lower (test_env [] []))
                              (filename file))).
  { right. eexists. split; [reflexivity|]. right.
    intros Hp.
    destruct (allowed_file_characterisation (fun s => s) (py "notes.txt"))
      as (b & Hb & Hiff).
    apply Hiff in Hp. subst b. vm_compute in Hb. discriminate. }
  split; [exact H|].
  exact (parse_statement_rejects_bad_upload (test_env [] [])
           (upload_request (py "notes.txt") (py "hi")) empty_world H).
Defined.

(** ** [/parse-statement]: the stored upload *)

Lemma M_bind_eq {A B} (m : M A) (f : A -> M B) w :
  (m ≫= f) w =
  match m w with
  | (Ok a, w') => f a w'
  | (Raise e, w') => (Raise e, w')
  end.
Proof. reflexivity. Qed.

Lemma result_bind_eq {A B} (m : result A) (f : A -> result B) :
  (m ≫= f) = match m with Ok a => f a | Raise e => Raise e end.
Proof. reflexivity. Qed.

Lemma os_remove_ok_inv E p w u w' :
  os_remove E p w = (Ok u, w') ->
  remove_error E (removals w) p = None
  /\ w' = World (delete p (fs w)) (prompts w) (S (removals w)).
Proof.
  unfold os_remove. destruct (fs w !! p); [|discriminate].
  destruct (remove_error E (removals w) p); [discriminate|].
  intros [= _ <-]. auto.
Qed.

Lemma os_remove_raise_inv E p w e w' :
  os_remove E p w = (Raise e, w') ->
  w' = World (fs w) (prompts w) (S (removals w)).
Proof.
  unfold os_remove. destruct (fs w !! p); [|by intros [= _ <-]].
  destruct (remove_error E (removals w) p); [by intros [= _ <-] | discriminate].
Qed.

Lemma str_strip_all_space s : forallb py_isspace s = true -> str_strip s = [].
Proof.
  unfold str_strip, strip_by. induction s as [|c s IH]; [reflexivity|].
  simpl. intros H. apply andb_true_iff in H as [-> H]. auto.
Qed.

(** What the [try] body looks like when it returns a response: either the
    empty-text answer or the success answer, and in both the upload has
    been removed again. *)
Lemma parse_body_ok_inv E file p w resp w' :
  parse_body E file p w = (Ok resp, w') ->
  exists pages text,
    pdf_pages E (content file) = Ok pages
    /\ extract_pages pages [] = Ok text
    /\ remove_error E (removals w) p = None
    /\ ((str_strip text = []
         /\ resp = jsonify (error_body "Could not extract text from PDF") 400
         /\ w' = World (delete p (<[p := content file]> (fs w))) (prompts w)
                   (S (removals w)))
        \/ exists out d av sv,
             generate_content E (build_prompt text) = Ok out
             /\ parse_output E out = Ok (PDict d)
             /\ validate_account
                  (default (PStr []) (assoc_get (py "account_number") d))
                = Ok av
             /\ validate_sort_code
                  (default (PStr []) (assoc_get (py "sort_code") d))
                = Ok sv
             /\ resp =
                jsonify
                  (PDict
                     [ (py "success", PBool true);
                       (py "data", PDict d);
                       (py "validation",
                         PDict [ (py "account_number_valid", PBool av);
                                 (py "sort_code_valid", PBool sv) ]);
                       (py "extracted_text_preview", PStr (take 500 text)) ])
                  200
             /\ w' = World (delete p (<[p := content file]> (fs w)))
                       (prompts w ++ [build_prompt text]) (S (removals w))).
Proof.
  unfold parse_body. rewrite M_bind_eq.
  unfold file_save. destruct (save_error E p) eqn:Hs; [discriminate|].
  rewrite M_bind_eq. unfold extract_text_from_pdf. cbn [fs].
  rewrite lookup_insert_eq, result_bind_eq.
  destruct (pdf_pages E (content file)) as [pages|] eqn:Hp; [|discriminate].
  destruct (extract_pages pages []) as [text|] eqn:He; [|discriminate].
  intros H. exists pages, text. split; [reflexivity|]. split; [assumption|].
  revert H. unfold truthy. case_bool_decide as Ht; cbn [negb].
  - rewrite M_bind_eq.
    destruct (os_remove _ _ _) as [[[]|] w1] eqn:Hrm; [|discriminate].
    apply os_remove_ok_inv in Hrm as [Hr ->]. intros [= <- <-].
    split; [assumption|]. left. rewrite Ht. auto.
  - rewrite M_bind_eq. unfold extract_bank_data_with_gemini, lift.
    destruct (generate_content E (build_prompt text)) as [out|] eqn:Hg;
      [|discriminate].
    rewrite M_bind_eq.
    destruct (parse_output E out) as [data|] eqn:Hd; [|discriminate].
    rewrite M_bind_eq.
    destruct data as [| | | | |l|d]; try discriminate. cbn [py_get].
    rewrite M_bind_eq.
    destruct (validate_account _) as [av|] eqn:Hav; [|discriminate].
    rewrite M_bind_eq, M_bind_eq.
    destruct (validate_sort_code _) as [sv|] eqn:Hsv; [|discriminate].
    rewrite M_bind_eq.
    destruct (os_remove _ _ _) as [[[]|] w1] eqn:Hrm; [|discriminate].
    apply os_remove_ok_inv in Hrm as [Hr ->]. intros [= <- <-].
    split; [assumption|]. right. exists out, d, av, sv. repeat split; auto.
Qed.

(** When the body raises after a successful save, the upload is still on
    disk. *)
Lemma parse_body_raise_keeps_file E file p w e w' :
  save_error E p = None ->
  parse_body E file p w = (Raise e, w') ->
  fs w' !! p = Some (content file).
Proof.
  intros Hs. unfold parse_body. rewrite M_bind_eq.
  unfold file_save. rewrite Hs.
  rewrite M_bind_eq. unfold extract_text_from_pdf. cbn [fs].
  rewrite lookup_insert_eq, result_bind_eq.
  destruct (pdf_pages E (content file)) as [pages|];
    [|intros [= _ <-]; apply lookup_insert_eq].
  destruct (extract_pages pages []) as [text|];
    [|intros [= _ <-]; apply lookup_insert_eq].
  destruct (negb (truthy (PStr (str_strip text)))).
  - rewrite M_bind_eq.
    destruct (os_remove _ _ _) as [[[]|] w1] eqn:Hrm; [discriminate|].
    apply os_remove_raise_inv in Hrm as ->. intros [= _ <-].
    apply lookup_insert_eq.
  - rewrite M_bind_eq. unfold extract_bank_data_with_gemini, lift.
    destruct (generate_content E (build_prompt text)) as [out|];
      [|intros [= _ <-]; apply lookup_insert_eq].
    rewrite M_bind_eq.
    destruct (parse_output E out) as [data|];
      [|intros [= _ <-]; apply lookup_insert_eq].
    rewrite M_bind_eq.
    destruct (py_get data _ _) as [acc|];
      [|intros [= _ <-]; apply lookup_insert_eq].
    rewrite M_bind_eq.
    destruct (validate_account acc) as [av|];
      [|intros [= _ <-]; apply lookup_insert_eq].
    rewrite M_bind_eq.
    destruct (py_get data _ _) as [sc|];
      [|intros [= _ <-]; apply lookup_insert_eq].
    rewrite M_bind_eq.
    destruct (validate_sort_code sc) as [sv|];
      [|intros [= _ <-]; apply lookup_insert_eq].
    rewrite M_bind_eq.
    destruct (os_remove _ _ _) as [[[]|] w1] eqn:Hrm; [discriminate|].
    apply os_remove_raise_inv in Hrm as ->. intros [= _ <-].
    apply lookup_insert_eq.
Qed.

Lemma handle_exception_removes E p e w :
  remove_error E (removals w) p = None ->
  exists resp w',
    handle_exception E (Some p) e w = (Ok resp, w')
    /\ status resp = 500 /\ fs w' !! p = None.
Proof.
  intros Hr. unfold handle_exception, os_path_exists.
  case_bool_decide as Hex.
  - destruct Hex as [b Hb]. rewrite M_bind_eq. unfold os_remove.
    rewrite Hb, Hr. eexists _, _. split; [reflexivity|].
    split; [reflexivity|]. apply lookup_delete_eq.
  - eexists _, _. split; [reflexivity|]. split; [reflexivity|].
    by apply eq_None_not_Some.
Qed.

Lemma handle_exception_denied E p e e0 w b :
  remove_error E (removals w) p = Some e0 -> fs w !! p = Some b ->
  handle_exception E (Some p) e w
  = (Raise e0, World (fs w) (prompts w) (S (removals w))).
Proof.
  intros Hr Hb. unfold handle_exception, os_path_exists.
  rewrite bool_decide_eq_true_2 by eauto.
  rewrite M_bind_eq. unfold os_remove. rewrite Hb, Hr. reflexivity.
Qed.


Lemma accepted_upload_request name bytes :
  name <> [] -> allowed_file (fun s => s) name = Ok true ->
  Z.of_nat (length bytes) <= MAX_CONTENT_LENGTH ->
  forall reply locked,
    accepted (test_env reply locked) (upload_request name bytes)
      {| filename := name; content := bytes |}.
Proof. intros Hn Ha Hcap reply locked. repeat split; assumption. Qed.


(** C9: a 200 answer of [/parse-statement] comes from an accepted upload
    whose text [text] was extracted, sent to the interpreter, and whose
    cleaned reply parsed to a dict [d].  The body holds [success = true],
    [d] itself as [data], the results of [validate_account] and
    [validate_sort_code] on the two fields of [d] (the empty string when a
    field is absent) and the first 500 characters of [text]. *)
Theorem success_response (E : Env) (req : request) (w w' : world)
    (resp : response) :
  parse_statement E req w = (Ok resp, w') ->
  status resp = 200 ->
  exists file pages text out d av sv,
    accepted E req file
    /\ pdf_pages E (content file) = Ok pages
    /\ extract_pages pages [] = Ok text
    /\ generate_content E (build_prompt text) = Ok out
    /\ parse_output E out = Ok (PDict d)
    /\ validate_account
         (default (PStr []) (assoc_get (py "account_number") d)) = Ok av
    /\ validate_sort_code
         (default (PStr []) (assoc_get (py "sort_code") d)) = Ok sv
    /\ (assoc_get (py "account_number") d = None -> av = false)
    /\ (assoc_get (py "sort_code") d = None -> sv = false)
    /\ body resp =
       PDict [ (py "success", PBool true);
               (py "data", PDict d);
               (py "validation",
                 PDict [ (py "account_number_valid", PBool av);
                         (py "sort_code_valid", PBool sv) ]);
               (py "extracted_text_preview", PStr (take 500 text)) ].
Proof.
  intros H H200.
  destruct (Z.ltb_spec MAX_CONTENT_LENGTH (content_length req)) as [Hover|Hcap].
  { rewrite (parse_statement_over_cap E req w Hover) in H.
    injection H as <- _. discriminate. }
  rewrite (parse_statement_within_cap E req w Hcap) in H.
  unfold parse_upload in H.
  destruct (files_get (py "file") (files req)) as [file|] eqn:Hf;
    [|injection H as <- _; discriminate].
  case_bool_decide as Hn; [injection H as <- _; discriminate|].
  destruct (allowed_file (unicode_lower E) (filename file)) as [[|]|e] eqn:Ha.
  - fold (temp_path E file) in H.
    destruct (parse_body E file (temp_path E file) w) as [[r|e] w1] eqn:Hb.
    + injection H as -> ->.
      apply parse_body_ok_inv in Hb
        as (pages & text & Hp & He & _ & [(_ & -> & _) | Hok]);
        [discriminate|].
      destruct Hok as (out & d & av & sv & Hg & Hd & Hav & Hsv & -> & _).
      exists file, pages, text, out, d, av, sv.
      do 7 (split; [done|]). split; [|split; [|reflexivity]].
      * intros Hnone. rewrite Hnone in Hav. by injection Hav.
      * intros Hnone. rewrite Hnone in Hsv. by injection Hsv.
    + exfalso. destruct e;
        try (unfold handle_exception in H; destruct (os_path_exists _ _);
             [ rewrite M_bind_eq in H;
               destruct (os_remove _ _ _) as [[[]|] ?];
               [injection H as <- _; discriminate | discriminate]
             | injection H as <- _; discriminate ]).
      injection H as <- _. discriminate.
  - injection H as <- _. discriminate.
  - injection H as <- _. discriminate.
Qed.

Lemma success_response_witness :
  parse_statement fenced_reply_env pdf_upload empty_world
    = (Ok success_answer, world_after_success)
  /\ status success_answer = 200
  /\ exists file pages text out d av sv,
       accepted fenced_reply_env pdf_upload file
       /\ pdf_pages fenced_reply_env (content file) = Ok pages
       /\ extract_pages pages [] = Ok text
       /\ generate_content fenced_reply_env (build_prompt text) = Ok out
       /\ parse_output fenced_reply_env out = Ok (PDict d)
       /\ validate_account
            (default (PStr []) (assoc_get (py "account_number") d)) = Ok av
       /\ validate_sort_code
            (default (PStr []) (assoc_get (py "sort_code") d)) = Ok sv
       /\ (assoc_get (py "account_number") d = None -> av = false)
       /\ (assoc_get (py "sort_code") d = None -> sv = false)
       /\ body success_answer =
          PDict [ (py "success", PBool true);
                  (py "data", PDict d);
                  (py "validation",
                    PDict [ (py "account_number_valid", PBool av);
                            (py "sort_code_valid", PBool sv) ]);
                  (py "extracted_text_preview", PStr (take 500 text)) ].
Proof.
  assert (H : parse_statement fenced_reply_env pdf_upload empty_world
              = (Ok success_answer, world_after_success)).
  { vm_compute. reflexivity. }
  split; [exact H|]. split; [reflexivity|].
  exact (success_response fenced_reply_env pdf_upload empty_world
           world_after_success success_answer H eq_refl).
Defined.

(** ** [/parse-statement]: cleanup of the stored upload *)

(** C5, as stated, fails in four ways.  When the interpreter's reply is
    not JSON the handler answers 500 and the upload stays on disk.  When
    [os.remove] keeps failing, the handler ends with that error in place of
    its 200 answer, and after another error (here the [AttributeError] of a
    reply that is a JSON list) that first error is lost as well.  When
    [os.remove] fails in the [try] body only, the failure is not ignored
    either: the 200 answer is replaced by the generic 500. *)
Lemma cleanup_not_on_every_path :
  (exists resp w',
     parse_statement (test_env (py "oops") []) pdf_upload empty_world
       = (Ok resp, w')
     /\ status resp = 500
     /\ fs w' !! py "uploads/a.pdf" = Some (py "hello"))
  /\ (exists w',
        parse_statement (test_env (fence (py "{}")) [py "uploads/a.pdf"])
          pdf_upload empty_world
        = (Raise permission_error, w')
        /\ fs w' !! py "uploads/a.pdf" = Some (py "hello"))
  /\ (exists w1 w',
        parse_body (test_env (py "[]") [py "uploads/a.pdf"]) pdf_file
          (py "uploads/a.pdf") empty_world
        = (Raise AttributeError, w1)
        /\ parse_statement (test_env (py "[]") [py "uploads/a.pdf"])
             pdf_upload empty_world
           = (Raise permission_error, w'))
  /\ (exists w',
        parse_statement (flaky_disk_env (fence (py "{}"))) pdf_upload
          empty_world
        = (Ok (jsonify
                 (error_details (flaky_disk_env (fence (py "{}")))
                    "An error occurred while processing the file"
                    permission_error)
                 500), w')
        /\ fs w' !! py "uploads/a.pdf" = None).
Proof.
  split; [|split; [|split]].
  - eexists _, _. split; [vm_compute; reflexivity|].
    split; vm_compute; reflexivity.
  - eexists. split; vm_compute; reflexivity.
  - eexists _, _. split; vm_compute; reflexivity.
  - eexists. split; vm_compute; reflexivity.
Qed.

(** The [try] body only ever adds to the count of removals. *)
Lemma parse_body_removals E file p w r w' :
  parse_body E file p w = (r, w') -> (removals w <= removals w')%nat.
Proof.
  assert (Hrm : forall w0 r0 w1,
             os_remove E p w0 = (r0, w1) -> removals w1 = S (removals w0)).
  { intros w0 r0 w1. unfold os_remove. destruct (fs w0 !! p);
      [destruct (remove_error E (removals w0) p)|]; by intros [= _ <-]. }
  unfold parse_body. rewrite M_bind_eq.
  unfold file_save. destruct (save_error E p); [by intros [= _ <-]|].
  rewrite M_bind_eq. unfold extract_text_from_pdf. cbn [fs].
  rewrite lookup_insert_eq, result_bind_eq.
  destruct (pdf_pages E (content file)) as [pages|]; [|by intros [= _ <-]].
  destruct (extract_pages pages []) as [text|]; [|by intros [= _ <-]].
  destruct (negb (truthy (PStr (str_strip text)))).
  - rewrite M_bind_eq.
    destruct (os_remove _ _ _) as [[[]|] w1] eqn:H; apply Hrm in H;
      intros [= _ <-]; cbn [removals] in H; lia.
  - rewrite M_bind_eq. unfold extract_bank_data_with_gemini, lift.
    destruct (generate_content E (build_prompt text)) as [out|];
      [|by intros [= _ <-]].
    rewrite M_bind_eq.
    destruct (parse_output E out) as [data|]; [|by intros [= _ <-]].
    rewrite M_bind_eq.
    destruct (py_get data _ _) as [acc|]; [|by intros [= _ <-]].
    rewrite M_bind_eq.
    destruct (validate_account acc) as [av|]; [|by intros [= _ <-]].
    rewrite M_bind_eq.
    destruct (py_get data _ _) as [sc|]; [|by intros [= _ <-]].
    rewrite M_bind_eq.
    destruct (validate_sort_code sc) as [sv|]; [|by intros [= _ <-]].
    rewrite M_bind_eq.
    destruct (os_remove _ _ _) as [[[]|] w1] eqn:H; apply Hrm in H;
      intros [= _ <-]; cbn [removals] in H; lia.
Qed.

(** X20: a removal that fails in the [try] body is handled like any other
    error.  When the text is blank and the [os.remove] of line 125 fails,
    the generic branch answers 500 with the removal's error in place of the
    400 and calls [os.remove] a second time; when that call succeeds the
    stored file is gone. *)
Theorem failed_removal_is_retried (E : Env) (req : request) (file : upload)
    (w : world) (pages : list (result (option pystr))) (text : pystr)
    (e : exn) :
  accepted E req file ->
  save_error E (temp_path E file) = None ->
  pdf_pages E (content file) = Ok pages ->
  extract_pages pages [] = Ok text ->
  forallb py_isspace text = true ->
  remove_error E (removals w) (temp_path E file) = Some e ->
  is_json_error e = false ->
  remove_error E (S (removals w)) (temp_path E file) = None ->
  parse_statement E req w
  = (Ok (jsonify
           (error_details E "An error occurred while processing the file" e)
           500),
     World (delete (temp_path E file)
              (<[temp_path E file := content file]> (fs w)))
       (prompts w) (S (S (removals w)))).
Proof.
  intros Hacc Hs Hp He Ht Hr1 Hnj Hr2.
  rewrite (parse_statement_accepted E req file w Hacc).
  unfold parse_body. rewrite M_bind_eq. unfold file_save. rewrite Hs.
  rewrite M_bind_eq. unfold extract_text_from_pdf. cbn [fs].
  rewrite lookup_insert_eq, result_bind_eq, Hp, He.
  rewrite (str_strip_all_space text Ht). cbn [truthy negb bool_decide].
  rewrite bool_decide_eq_true_2 by reflexivity. cbn [negb].
  rewrite M_bind_eq. unfold os_remove at 1. cbn [fs removals prompts].
  rewrite lookup_insert_eq, Hr1.
  assert (Hgen : handle_exception E (Some (temp_path E file)) e
                   (World (<[temp_path E file := content file]> (fs w))
                      (prompts w) (S (removals w)))
                 = (Ok (jsonify
                          (error_details E
                             "An error occurred while processing the file" e)
                          500),
                    World (delete (temp_path E file)
                             (<[temp_path E file := content file]> (fs w)))
                      (prompts w) (S (S (removals w))))).
  { unfold handle_exception, os_path_exists. cbn [fs].
    rewrite lookup_insert_eq, bool_decide_eq_true_2 by eauto.
    rewrite M_bind_eq. unfold os_remove. cbn [fs removals prompts].
    by rewrite lookup_insert_eq, Hr2. }
  destruct e; try exact Hgen. discriminate Hnj.
Qed.

Lemma failed_removal_is_retried_witness :
  accepted (flaky_disk_env []) blank_upload blank_file
  /\ save_error (flaky_disk_env []) (temp_path (flaky_disk_env []) blank_file)
     = None
  /\ pdf_pages (flaky_disk_env []) (content blank_file)
     = Ok [Ok (Some (py "  "))]
  /\ extract_pages [Ok (Some (py "  "))] [] = Ok (py "  " ++ nl)
  /\ forallb py_isspace (py "  " ++ nl) = true
  /\ remove_error (flaky_disk_env []) (removals empty_world)
       (temp_path (flaky_disk_env []) blank_file) = Some permission_error
  /\ is_json_error permission_error = false
  /\ remove_error (flaky_disk_env []) (S (removals empty_world))
       (temp_path (flaky_disk_env []) blank_file) = None
  /\ parse_statement (flaky_disk_env []) blank_upload empty_world
     = (Ok (jsonify
              (error_details (flaky_disk_env [])
                 "An error occurred while processing the file"
                 permission_error)
              500),
        World (delete (temp_path (flaky_disk_env []) blank_file)
                 (<[temp_path (flaky_disk_env []) blank_file
                    := content blank_file]> (fs empty_world)))
          (prompts empty_world) (S (S (removals empty_world)))).
Proof.
  assert (Ha : accepted (flaky_disk_env []) blank_upload blank_file).
  { split; [by vm_compute|].
    split; [reflexivity | split; [discriminate | reflexivity]]. }
  split; [exact Ha|]. do 7 (split; [reflexivity|]).
  exact (failed_removal_is_retried (flaky_disk_env []) blank_upload blank_file
           empty_world [Ok (Some (py "  "))] (py "  " ++ nl) permission_error
           Ha eq_refl eq_refl eq_refl eq_refl eq_refl eq_refl eq_refl).
Defined.

(** C5, amended: once the upload has been stored, and unless the handler
    leaves through its JSON-parse-failure branch, a response of the handler
    means that the stored file has been deleted.  Deletion is not
    best-effort: an error of [os.remove] is never ignored.  A 200 or 400
    answer is given only when the removal in the [try] body succeeded
    (a failure there is handled by the generic branch, which tries the
    removal again), and when the handler's last removal fails, the handler
    ends by raising that error of [os.remove] in place of a response, with
    the file still on disk. *)
Theorem temp_file_cleanup (E : Env) (req : request) (file : upload)
    (w w' : world) (r : result response) :
  accepted E req file ->
  save_error E (temp_path E file) = None ->
  (forall msg,
     (parse_body E file (temp_path E file) w).1 <> Raise (JSONDecodeError msg)) ->
  parse_statement E req w = (r, w') ->
  match r with
  | Ok resp =>
      fs w' !! temp_path E file = None
      /\ (status resp <> 500 ->
          remove_error E (removals w) (temp_path E file) = None)
  | Raise e =>
      fs w' !! temp_path E file = Some (content file)
      /\ exists n, (removals w <= n)%nat
                   /\ remove_error E n (temp_path E file) = Some e
  end.
Proof.
  intros Hacc Hs Hnj. rewrite (parse_statement_accepted E req file w Hacc).
  destruct (parse_body E file (temp_path E file) w) as [[resp|e] w1] eqn:Hb.
  - intros [= <- <-].
    apply parse_body_ok_inv in Hb as (pages & text & _ & _ & Hr & Hcases).
    split; [|by intros _].
    destruct Hcases as [(_ & _ & ->) | (? & ? & ? & ? & _ & _ & _ & _ & _ & ->)];
      apply lookup_delete_eq.
  - pose proof (parse_body_raise_keeps_file _ _ _ _ _ _ Hs Hb) as Hkeep.
    pose proof (parse_body_removals _ _ _ _ _ _ Hb) as Hle.
    assert (Hgen : handle_exception E (Some (temp_path E file)) e w1 = (r, w') ->
                   match r with
                   | Ok resp =>
                       fs w' !! temp_path E file = None
                       /\ (status resp <> 500 ->
                           remove_error E (removals w) (temp_path E file) = None)
                   | Raise e0 =>
                       fs w' !! temp_path E file = Some (content file)
                       /\ exists n, (removals w <= n)%nat
                                    /\ remove_error E n (temp_path E file)
                                       = Some e0
                   end).
    { destruct (remove_error E (removals w1) (temp_path E file)) as [e0|] eqn:Hr.
      - rewrite (handle_exception_denied _ _ _ _ _ _ Hr Hkeep).
        intros [= <- <-]. cbn [fs]. eauto.
      - destruct (handle_exception_removes E _ e w1 Hr)
          as (resp & w2 & -> & H500 & Hgone).
        intros [= <- <-]. split; [assumption|]. by intros Hne. }
    destruct e; try exact Hgen.
    exfalso. apply (Hnj msg). reflexivity.
Qed.

Lemma temp_file_cleanup_witness :
  accepted fenced_reply_env pdf_upload pdf_file
  /\ save_error fenced_reply_env (temp_path fenced_reply_env pdf_file) = None
  /\ (forall msg,
        (parse_body fenced_reply_env pdf_file
           (temp_path fenced_reply_env pdf_file) empty_world).1
        <> Raise (JSONDecodeError msg))
  /\ parse_statement fenced_reply_env pdf_upload empty_world
     = (Ok success_answer, world_after_success)
  /\ fs world_after_success !! temp_path fenced_reply_env pdf_file = None
  /\ (status success_answer <> 500 ->
      remove_error fenced_reply_env (removals empty_world)
        (temp_path fenced_reply_env pdf_file) = None).
Proof.
  assert (Ha : accepted fenced_reply_env pdf_upload pdf_file).
  { apply accepted_upload_request; [discriminate | reflexivity | by vm_compute]. }
  assert (Hn : forall msg,
             (parse_body fenced_reply_env pdf_file
                (temp_path fenced_reply_env pdf_file) empty_world).1
             <> Raise (JSONDecodeError msg)).
  { intros msg. vm_compute. discriminate. }
  assert (Hp : parse_statement fenced_reply_env pdf_upload empty_world
               = (Ok success_answer, world_after_success)).
  { vm_compute. reflexivity. }
  split; [exact Ha|]. split; [reflexivity|]. split; [exact Hn|].
  split; [exact Hp|].
  exact (temp_file_cleanup fenced_reply_env pdf_upload pdf_file empty_world
           world_after_success (Ok success_answer) Ha eq_refl Hn Hp).
Defined.

(** The branch for [json.JSONDecodeError] has no cleanup: whenever the body
    ends in that error after a successful save, the handler answers 500 and
    the upload is still on disk. *)
Lemma json_failure_leaves_upload E req file w msg w1 :
  accepted E req file ->
  save_error E (temp_path E file) = None ->
  parse_body E file (temp_path E file) w = (Raise (JSONDecodeError msg), w1) ->
  parse_statement E req w
  = (Ok (jsonify
           (error_details E "Failed to parse AI response as JSON"
              (JSONDecodeError msg))
           500), w1)
  /\ fs w1 !! temp_path E file = Some (content file).
Proof.
  intros Hacc Hs Hb. rewrite (parse_statement_accepted E req file w Hacc), Hb.
  split; [reflexivity|]. exact (parse_body_raise_keeps_file _ _ _ _ _ _ Hs Hb).
Qed.

(** ** Stripping and replacing *)

Section Strip.
Variable p : codepoint -> bool.

Lemma lstrip_by_app a s :
  forallb p a = true -> lstrip_by p (a ++ s) = lstrip_by p s.
Proof.
  induction a as [|c a IH]; [reflexivity|]. simpl.
  intros H. apply andb_true_iff in H as [-> H]. auto.
Qed.

Lemma rstrip_by_all b : forallb p b = true -> rstrip_by p b = [].
Proof.
  induction b as [|c b IH]; [reflexivity|]. simpl.
  intros H. apply andb_true_iff in H as [-> H]. by rewrite IH.
Qed.

Lemma rstrip_by_app s b :
  forallb p b = true -> rstrip_by p (s ++ b) = rstrip_by p s.
Proof.
  intros Hb. induction s as [|c s IH]; simpl.
  - by apply rstrip_by_all.
  - by rewrite IH.
Qed.

Lemma lstrip_rstrip_app s b :
  forallb p b = true ->
  rstrip_by p (lstrip_by p (s ++ b)) = rstrip_by p (lstrip_by p s).
Proof.
  intros Hb. induction s as [|c s IH]; simpl.
  - rewrite <- (app_nil_r b), lstrip_by_app by assumption. reflexivity.
  - destruct (p c); [assumption|].
    change (c :: s ++ b) with ((c :: s) ++ b). by apply rstrip_by_app.
Qed.

(** Margins made of strippable characters do not change the result. *)
Lemma strip_by_margins a s b :
  forallb p a = true -> forallb p b = true ->
  strip_by p (a ++ s ++ b) = strip_by p s.
Proof.
  intros Ha Hb. unfold strip_by.
  rewrite lstrip_by_app by assumption. by apply lstrip_rstrip_app.
Qed.

Lemma lstrip_by_split s :
  exists a, s = a ++ lstrip_by p s /\ forallb p a = true.
Proof.
  induction s as [|c s (a & Hs & Ha)]; [by exists []|]. simpl.
  destruct (p c) eqn:Hc.
  - exists (c :: a). simpl. rewrite Hc, Ha. split; [congruence | reflexivity].
  - by exists [].
Qed.

Lemma rstrip_by_split s :
  exists b, s = rstrip_by p s ++ b /\ forallb p b = true.
Proof.
  induction s as [|c s (b & Hs & Hb)]; [by exists []|]. simpl.
  destruct (rstrip_by p s) as [|d t] eqn:Hr.
  - simpl in Hs. subst s. destruct (p c) eqn:Hc.
    + exists (c :: b). simpl. by rewrite Hc, Hb.
    + by exists b.
  - exists b. split; [|assumption]. simpl. f_equal. exact Hs.
Qed.

(** A text is its stripped core between two strippable margins. *)
Lemma strip_by_split s :
  exists a b,
    s = a ++ strip_by p s ++ b
    /\ forallb p a = true /\ forallb p b = true.
Proof.
  destruct (lstrip_by_split s) as (a & Hs & Ha).
  destruct (rstrip_by_split (lstrip_by p s)) as (b & Hl & Hb).
  exists a, b. unfold strip_by. rewrite <- Hl. auto.
Qed.

Lemma rstrip_by_snoc s c : p c = false -> rstrip_by p (s ++ [c]) = s ++ [c].
Proof.
  intros Hc. induction s as [|d s IH]; simpl; [by rewrite Hc|].
  rewrite IH. by destruct s.
Qed.
End Strip.

Lemma starts_with_app old x z :
  starts_with old x = true -> starts_with old (x ++ z) = true.
Proof.
  revert x. induction old as [|a old IH]; intros [|b x]; simpl; try done.
  intros H. apply andb_true_iff in H as [-> H]. by apply IH.
Qed.

Lemma starts_with_sep old x c y :
  c ∉ old -> starts_with old (x ++ c :: y) = true -> starts_with old x = true.
Proof.
  revert x. induction old as [|a old IH]; intros x Hc; [done|].
  apply not_elem_of_cons in Hc as [Hne Hc].
  destruct x as [|b x]; simpl.
  - intros H. apply andb_true_iff in H as [H _].
    apply Z.eqb_eq in H. congruence.
  - intros H. apply andb_true_iff in H as [-> H]. by apply IH.
Qed.

Lemma starts_with_length old x :
  starts_with old x = true -> (length old <= length x)%nat.
Proof.
  revert x. induction old as [|a old IH]; intros [|b x]; simpl; try done.
  - lia.
  - intros H. apply andb_true_iff in H as [_ H]. apply IH in H. lia.
Qed.

Lemma replace_scan_skip old new k s :
  replace_scan old new k s = replace_scan old new 0 (drop k s).
Proof.
  revert k. induction s as [|c s IH]; intros [|k]; try reflexivity.
  simpl. apply IH.
Qed.

(** One step of the scan for a non-empty [old]. *)
Lemma replace_scan_step old new c s :
  replace_scan old new 0 (c :: s) =
    if starts_with old (c :: s)
    then new ++ replace_scan old new 0 (drop (length old - 1) s)
    else c :: replace_scan old new 0 s.
Proof.
  simpl replace_scan. destruct (starts_with old (c :: s)); [|reflexivity].
  by rewrite replace_scan_skip.
Qed.

(** A character that does not occur in [old] cuts the scan in two. *)
Lemma replace_scan_sep old c x y :
  old <> [] -> c ∉ old ->
  replace_scan old [] 0 (x ++ c :: y)
  = replace_scan old [] 0 x ++ c :: replace_scan old [] 0 y.
Proof.
  intros Hne Hc. remember (length x) as n eqn:Hn. revert x Hn.
  induction n as [n IH] using lt_wf_ind. intros [|d x] Hn.
  - rewrite app_nil_l, replace_scan_step.
    destruct (starts_with old (c :: y)) eqn:Hs; [|reflexivity].
    destruct old as [|a old]; [done|]. simpl in Hs.
    apply andb_true_iff in Hs as [Hs _]. apply Z.eqb_eq in Hs.
    subst a. exfalso. apply Hc. left.
  - change ((d :: x) ++ c :: y) with (d :: (x ++ c :: y)).
    rewrite !replace_scan_step.
    destruct (starts_with old (d :: x ++ c :: y)) eqn:Hs.
    + change (d :: x ++ c :: y) with ((d :: x) ++ c :: y) in Hs.
      apply (starts_with_sep _ _ _ _ Hc) in Hs. rewrite Hs.
      pose proof (starts_with_length _ _ Hs) as Hl. simpl in Hl.
      rewrite drop_app_le by lia. simpl.
      apply (IH (length (drop (length old - 1) x))); [|reflexivity].
      rewrite length_drop. subst n. simpl. lia.
    + destruct (starts_with old (d :: x)) eqn:Hs'.
      * apply (starts_with_app _ _ (c :: y)) in Hs'. simpl in Hs', Hs.
        congruence.
      * simpl. f_equal. apply (IH (length x)); [subst n; simpl; lia | reflexivity].
Qed.

Lemma replace_scan_prefix old a y :
  old <> [] -> Forall (fun c => c ∉ old) a ->
  replace_scan old [] 0 (a ++ y) = a ++ replace_scan old [] 0 y.
Proof.
  intros Hne Ha. induction Ha as [|c a Hc Ha IH]; [reflexivity|].
  change ((c :: a) ++ y) with ([] ++ c :: (a ++ y)).
  rewrite replace_scan_sep by assumption. simpl. by rewrite IH.
Qed.

Lemma replace_scan_suffix old x b :
  old <> [] -> Forall (fun c => c ∉ old) b ->
  replace_scan old [] 0 (x ++ b) = replace_scan old [] 0 x ++ b.
Proof.
  intros Hne Hb. destruct Hb as [|c b Hc Hb]; [by rewrite !app_nil_r|].
  rewrite replace_scan_sep by assumption. do 2 f_equal.
  rewrite <- (app_nil_r b) at 1. rewrite replace_scan_prefix by assumption.
  simpl. apply app_nil_r.
Qed.

(** ** The fenced reply *)

Lemma str_replace_scan old new s :
  old <> [] -> str_replace old new s = replace_scan old new 0 s.
Proof. by destruct old. Qed.

Lemma json_ws_not_in_fence a :
  forallb json_ws a = true ->
  Forall (fun c => c ∉ py "```json") a /\ Forall (fun c => c ∉ py "```") a.
Proof.
  intros H. rewrite forallb_forall in H.
  split; apply Forall_forall; intros c Hc;
    apply list_elem_of_In, H in Hc; unfold json_ws in Hc;
    repeat (apply orb_true_iff in Hc as [Hc|Hc]);
    apply Z.eqb_eq in Hc; subst c;
    apply (bool_decide_eq_false_1 _); vm_compute; reflexivity.
Qed.

Lemma json_ws_is_space c : json_ws c = true -> py_isspace c = true.
Proof.
  unfold json_ws. intros H.
  repeat (apply orb_true_iff in H as [H|H]);
    apply Z.eqb_eq in H; subst c; reflexivity.
Qed.

Lemma fence_markers_nonempty : py "```json" <> [] /\ py "```" <> [].
Proof. split; discriminate. Qed.

(** JSON whitespace around a text passes through the two replacements. *)
Lemma remove_fences_margins a s b :
  forallb json_ws a = true -> forallb json_ws b = true ->
  remove_fences (a ++ s ++ b) = a ++ remove_fences s ++ b.
Proof.
  intros Ha Hb. destruct fence_markers_nonempty as [Hn1 Hn2].
  destruct (json_ws_not_in_fence a Ha) as [Ha1 Ha2].
  destruct (json_ws_not_in_fence b Hb) as [Hb1 Hb2].
  unfold remove_fences. rewrite !str_replace_scan by assumption.
  rewrite (replace_scan_prefix (py "```json") a (s ++ b) Hn1 Ha1).
  rewrite (replace_scan_suffix (py "```json") s b Hn1 Hb1).
  rewrite (replace_scan_prefix (py "```") a _ Hn2 Ha2).
  rewrite (replace_scan_suffix (py "```") _ b Hn2 Hb2).
  reflexivity.
Qed.

Lemma replace_scan_between_lines old pre j post :
  old <> [] -> 0x0a ∉ old ->
  replace_scan old [] 0 (pre ++ 0x0a :: j ++ 0x0a :: post)
  = replace_scan old [] 0 pre
      ++ 0x0a :: replace_scan old [] 0 j ++ 0x0a :: replace_scan old [] 0 post.
Proof.
  intros Hne Hnl. rewrite replace_scan_sep by assumption.
  by rewrite replace_scan_sep by assumption.
Qed.

Lemma str_strip_fence j : str_strip (fence j) = fence j.
Proof.
  unfold str_strip, strip_by.
  assert (Hl : lstrip_by py_isspace (fence j) = fence j) by reflexivity.
  rewrite Hl.
  assert (Hr : fence j = (py "```json" ++ nl ++ j ++ nl ++ py "``") ++ [0x60]).
  { unfold fence. rewrite <- !app_assoc. reflexivity. }
  rewrite Hr. by apply rstrip_by_snoc.
Qed.

(** Cleaning a fenced reply leaves the text between two line feeds. *)
Lemma clean_output_fence j :
  clean_output (fence j) = nl ++ remove_fences j ++ nl.
Proof.
  unfold clean_output. rewrite str_strip_fence.
  destruct fence_markers_nonempty as [Hn1 Hn2].
  assert (Hnl1 : 0x0a ∉ py "```json")
    by (apply (bool_decide_eq_false_1 _); vm_compute; reflexivity).
  assert (Hnl2 : 0x0a ∉ py "```")
    by (apply (bool_decide_eq_false_1 _); vm_compute; reflexivity).
  unfold remove_fences. rewrite !str_replace_scan by assumption.
  change (fence j) with (py "```json" ++ 0x0a :: j ++ 0x0a :: py "```").
  rewrite replace_scan_between_lines by assumption.
  change (replace_scan (py "```json") [] 0 (py "```json")) with (@nil Z).
  change (replace_scan (py "```json") [] 0 (py "```")) with (py "```").
  rewrite app_nil_l.
  change (0x0a :: ?x ++ 0x0a :: py "```")
    with ([] ++ 0x0a :: x ++ 0x0a :: py "```").
  rewrite replace_scan_between_lines by assumption.
  reflexivity.
Qed.

(** The same fact from the text alone: it is enough that the whitespace
    around [j] is JSON whitespace. *)
Lemma fenced_reply_parses_alike_margins (loads : pystr -> result pyval)
    (j : pystr) :
  (forall a s b,
     forallb json_ws a = true -> forallb json_ws b = true ->
     parsed (loads (a ++ s ++ b)) = parsed (loads s)) ->
  strip_by json_ws j = str_strip j ->
  parsed (loads (clean_output (fence j))) = parsed (loads (clean_output j)).
Proof.
  intros Hws Hmargin. rewrite clean_output_fence.
  rewrite (Hws nl (remove_fences j) nl) by reflexivity.
  unfold clean_output. rewrite <- Hmargin.
  destruct (strip_by_split json_ws j) as (a & b & Hs & Ha & Hb).
  rewrite Hs at 1. rewrite remove_fences_margins by assumption.
  by apply Hws.
Qed.

(** C6: for a loader that treats whitespace as JSON does, and a JSON text
    [j] (one the loader accepts), cleaning and parsing the reply that wraps
    [j] in a markdown fence gives the same parsed value as cleaning and
    parsing [j] itself. *)
Theorem fenced_reply_parses_alike (E : Env) (j : pystr) (v : pyval) :
  json_loads_contract (json_loads E) ->
  json_loads E j = Ok v ->
  parsed (parse_output E (fence j)) = parsed (parse_output E j).
Proof.
  intros [Hws Hmargin] Hj. unfold parse_output.
  apply fenced_reply_parses_alike_margins; [exact Hws|].
  exact (Hmargin j v Hj).
Qed.

(** The loader of the five literals honours the contract. *)
Lemma literal_loads_contract : json_loads_contract literal_loads.
Proof.
  split.
  - intros a s b Ha Hb. unfold literal_loads.
    by rewrite strip_by_margins.
  - intros s v. unfold literal_loads.
    destruct (strip_by_split json_ws s) as (a & b & Hs & Ha & Hb).
    assert (Hsp : forall l, forallb json_ws l = true ->
                            forallb py_isspace l = true).
    { intros l Hl. apply forallb_forall. intros c Hc.
      apply json_ws_is_space. rewrite forallb_forall in Hl. auto. }
    intros H. rewrite Hs at 2. unfold str_strip.
    rewrite strip_by_margins by auto. cbv zeta in H.
    repeat (case_bool_decide as Ht; [by rewrite Ht | clear Ht]).
    discriminate H.
Qed.

Lemma fenced_reply_parses_alike_witness :
  json_loads_contract (json_loads fenced_reply_env)
  /\ json_loads fenced_reply_env (py "{}") = Ok (PDict [])
  /\ parsed (parse_output fenced_reply_env (fence (py "{}")))
     = parsed (parse_output fenced_reply_env (py "{}")).
Proof.
  split; [exact literal_loads_contract|]. split; [reflexivity|].
  exact (fenced_reply_parses_alike fenced_reply_env (py "{}") (PDict [])
           literal_loads_contract eq_refl).
Defined.

(** Outside JSON texts the two can differ: a form feed before the value is
    stripped from the bare reply but survives inside the fence. *)
Lemma fence_keeps_inner_form_feed :
  clean_output (0x0c :: py "{}") = py "{}"
  /\ clean_output (fence (0x0c :: py "{}")) = nl ++ 0x0c :: py "{}" ++ nl.
Proof. split; reflexivity. Qed.

(** * Further properties of the code *)

(** ** [extract_text_from_pdf] *)

Lemma extract_pages_ok texts acc :
  extract_pages (Ok <$> texts) acc = Ok (acc ++ concat (page_line <$> texts)).
Proof.
  revert acc. induction texts as [|page texts IH]; intros acc.
  - simpl. by rewrite app_nil_r.
  - rewrite fmap_cons. cbn [extract_pages]. rewrite result_bind_eq.
    destruct page as [[|c t]|]; rewrite IH; cbn [fmap list_fmap concat page_line].
    + reflexivity.
    + by rewrite <- !app_assoc.
    + reflexivity.
Qed.

(** X1: when the stored file opens and every page yields its text (or
    none), the extracted text is the texts of the pages in page order, each
    non-empty one followed by a line feed; pages without text add nothing.
    The world is left as it was. *)
Theorem extract_text_is_page_lines (E : Env) (path : pystr) (w : world)
    (bytes : list Z) (texts : list (option pystr)) :
  fs w !! path = Some bytes ->
  pdf_pages E bytes = Ok (Ok <$> texts) ->
  extract_text_from_pdf E path w = (Ok (concat (page_line <$> texts)), w).
Proof.
  intros Hf Hp. unfold extract_text_from_pdf.
  rewrite Hf, result_bind_eq, Hp. by rewrite extract_pages_ok.
Qed.

Lemma strip_by_nil_iff p s : strip_by p s = [] <-> forallb p s = true.
Proof.
  split.
  - intros H. destruct (strip_by_split p s) as (a & b & Hs & Ha & Hb).
    rewrite H in Hs. rewrite Hs. simpl. rewrite forallb_app. by rewrite Ha, Hb.
  - intros H. unfold strip_by.
    rewrite <- (app_nil_r s), lstrip_by_app by assumption. reflexivity.
Qed.

Lemma page_line_blank page :
  forallb py_isspace (page_line page) = true <-> blank_page page.
Proof.
  unfold blank_page. destruct page as [[|c t]|]; cbn [page_line].
  - split; [intros _ t [= <-]; reflexivity | reflexivity].
  - rewrite forallb_app. change (forallb py_isspace nl) with true.
    rewrite andb_true_r. split; [by intros H t' [= <-] | by intros H; apply H].
  - split; [intros _ t; discriminate | reflexivity].
Qed.

(** X2: the guard [not statement_text.strip()] fires exactly when every
    page is blank: it has no text, or its text is whitespace only. *)
Theorem extracted_text_blank_iff (texts : list (option pystr)) :
  exists text,
    extract_pages (Ok <$> texts) [] = Ok text
    /\ (negb (truthy (PStr (str_strip text))) = true
        <-> Forall blank_page texts).
Proof.
  eexists. split; [apply extract_pages_ok|]. rewrite app_nil_l.
  unfold truthy. rewrite negb_involutive, bool_decide_eq_true.
  unfold str_strip. rewrite strip_by_nil_iff.
  induction texts as [|page texts IH]; [by split|].
  rewrite fmap_cons. cbn [concat]. rewrite forallb_app, andb_true_iff.
  rewrite Forall_cons, IH, page_line_blank. reflexivity.
Qed.

Lemma extract_text_is_page_lines_witness :
  fs (World {[ py "uploads/a.pdf" := py "hello" ]} [] 0) !! py "uploads/a.pdf"
    = Some (py "hello")
  /\ pdf_pages (test_env [] []) (py "hello") = Ok (Ok <$> [Some (py "hello")])
  /\ extract_text_from_pdf (test_env [] []) (py "uploads/a.pdf")
       (World {[ py "uploads/a.pdf" := py "hello" ]} [] 0)
     = (Ok (concat (page_line <$> [Some (py "hello")])),
        World {[ py "uploads/a.pdf" := py "hello" ]} [] 0).
Proof.
  assert (Hf : fs (World {[ py "uploads/a.pdf" := py "hello" ]} [] 0)
                 !! py "uploads/a.pdf" = Some (py "hello"))
    by apply lookup_singleton_eq.
  split; [exact Hf|]. split; [reflexivity|].
  exact (extract_text_is_page_lines (test_env [] []) (py "uploads/a.pdf")
           (World {[ py "uploads/a.pdf" := py "hello" ]} [] 0)
           (py "hello") [Some (py "hello")] Hf eq_refl).
Defined.

(** ** The cleaned reply *)

Lemma fence_marker_eq : py "```" = [backtick; backtick; backtick].
Proof. reflexivity. Qed.

Lemma fence_scan_step c s :
  replace_scan (py "```") [] 0 (c :: s) =
    if starts_with (py "```") (c :: s)
    then replace_scan (py "```") [] 0 (drop 2 s)
    else c :: replace_scan (py "```") [] 0 s.
Proof. apply replace_scan_step. Qed.

Lemma starts_with_cons a p b s :
  starts_with (a :: p) (b :: s) = (a =? b) && starts_with p s.
Proof. reflexivity. Qed.

Lemma fence_scan_head s :
  starts_with [backtick] (replace_scan (py "```") [] 0 s) = true ->
  starts_with [backtick] s = true.
Proof.
  destruct s as [|c s]; [done|]. rewrite fence_scan_step, fence_marker_eq.
  rewrite !starts_with_cons.
  destruct (backtick =? c) eqn:Hc; [by intros _|].
  cbn [andb]. rewrite starts_with_cons, Hc. by intros H.
Qed.

Lemma fence_scan_head2 s :
  starts_with [backtick; backtick] (replace_scan (py "```") [] 0 s) = true ->
  starts_with [backtick; backtick] s = true.
Proof.
  destruct s as [|c s]; [done|]. rewrite fence_scan_step.
  destruct (starts_with (py "```") (c :: s)) eqn:Hm.
  - intros _. rewrite fence_marker_eq, starts_with_cons in Hm.
    apply andb_true_iff in Hm as [Hc Hm]. rewrite starts_with_cons, Hc.
    destruct s as [|d s]; [discriminate|].
    rewrite starts_with_cons in Hm. apply andb_true_iff in Hm as [Hd _].
    rewrite starts_with_cons, Hd. reflexivity.
  - rewrite !starts_with_cons. intros H. apply andb_true_iff in H as [Hc H].
    rewrite Hc. cbn [andb]. by apply fence_scan_head.
Qed.

(** After the second [replace] no run of three backticks is left. *)
Lemma fence_scan_no_fence s a b :
  replace_scan (py "```") [] 0 s <> a ++ py "```" ++ b.
Proof.
  remember (length s) as n eqn:Hn. revert s a b Hn.
  induction n as [n IH] using lt_wf_ind. intros [|c s] a b Hn.
  - destruct a; discriminate.
  - rewrite fence_scan_step.
    destruct (starts_with (py "```") (c :: s)) eqn:Hm.
    + apply (IH (length (drop 2 s))); [|reflexivity].
      rewrite length_drop. subst n. simpl. lia.
    + destruct a as [|x a].
      * rewrite app_nil_l, fence_marker_eq. intros H.
        change ([backtick; backtick; backtick] ++ b)
          with (backtick :: [backtick; backtick] ++ b) in H.
        injection H as -> H.
        assert (H2 : starts_with [backtick; backtick]
                       (replace_scan (py "```") [] 0 s) = true).
        { rewrite fence_marker_eq, H.
          rewrite !starts_with_cons, !Z.eqb_refl. reflexivity. }
        apply fence_scan_head2 in H2.
        rewrite fence_marker_eq, starts_with_cons, Z.eqb_refl in Hm.
        cbn [andb] in Hm. congruence.
      * intros H. change ((x :: a) ++ py "```" ++ b)
          with (x :: (a ++ py "```" ++ b)) in H.
        injection H as _ H. revert H.
        apply (IH (length s)); [subst n; simpl; lia | reflexivity].
Qed.

Lemma starts_with_split sub s :
  starts_with sub s = true -> exists b, s = sub ++ b.
Proof.
  revert s. induction sub as [|x sub IH]; intros s; [by exists s|].
  destruct s as [|c s]; [discriminate|]. rewrite starts_with_cons.
  intros H. apply andb_true_iff in H as [Hx H]. apply Z.eqb_eq in Hx as ->.
  destruct (IH s H) as (b & ->). by exists b.
Qed.

Lemma str_has_split sub s :
  str_has sub s = true -> exists a b, s = a ++ sub ++ b.
Proof.
  induction s as [|c s IH]; cbn [str_has].
  - intros H. apply starts_with_split in H as (b & Hb). by exists [], b.
  - intros H. apply orb_true_iff in H as [H|H].
    + apply starts_with_split in H as (b & Hb). by exists [], b.
    + destruct (IH H) as (a & b & ->). by exists (c :: a), b.
Qed.

(** X3: whatever the interpreter replied, the text handed to [json.loads]
    contains no code-fence marker: neither three backticks in a row nor,
    with them, the opening marker occur anywhere in it. *)
Theorem clean_output_has_no_fence (ai_output : pystr) :
  str_has (py "```") (clean_output ai_output) = false
  /\ str_has (py "```json") (clean_output ai_output) = false.
Proof.
  assert (Hno : forall a b, clean_output ai_output <> a ++ py "```" ++ b).
  { intros a b. unfold clean_output, remove_fences.
    rewrite (str_replace_scan (py "```")) by discriminate.
    apply fence_scan_no_fence. }
  split.
  - destruct (str_has (py "```") (clean_output ai_output)) eqn:H; [|done].
    apply str_has_split in H as (a & b & H). by destruct (Hno a b).
  - destruct (str_has (py "```json") (clean_output ai_output)) eqn:H; [|done].
    apply str_has_split in H as (a & b & H).
    destruct (Hno a (py "json" ++ b)). rewrite H.
    change (py "```json") with (py "```" ++ py "json").
    by rewrite <- !app_assoc.
Qed.

Lemma replace_scan_no_head h old s :
  h ∉ s -> replace_scan (h :: old) [] 0 s = s.
Proof.
  induction s as [|c s IH]; [reflexivity|]. intros Hh.
  apply not_elem_of_cons in Hh as [Hne Hh].
  rewrite replace_scan_step, starts_with_cons.
  destruct (Z.eqb_spec h c) as [->|_]; [done|]. cbn [andb]. by rewrite IH.
Qed.

Lemma strip_by_elem p s c : c ∈ strip_by p s -> c ∈ s.
Proof.
  intros Hc. destruct (strip_by_split p s) as (a & b & Hs & _).
  rewrite Hs. apply elem_of_app. right. apply elem_of_app. by left.
Qed.

(** X4: a reply without any backtick is only stripped: the two [replace]
    calls leave it as it is. *)
Theorem clean_output_without_backtick (ai_output : pystr) :
  backtick ∉ ai_output ->
  clean_output ai_output = str_strip ai_output.
Proof.
  intros Hb.
  assert (Hs : backtick ∉ str_strip ai_output).
  { intros Hin. apply Hb. by apply (strip_by_elem py_isspace). }
  unfold clean_output, remove_fences.
  rewrite !str_replace_scan by discriminate.
  change (py "```json") with (backtick :: py "``json").
  change (py "```") with (backtick :: py "``").
  rewrite (replace_scan_no_head backtick (py "``json") _ Hs).
  exact (replace_scan_no_head backtick (py "``") _ Hs).
Qed.

Lemma clean_output_without_backtick_witness :
  (backtick ∉ py " {}  ")
  /\ clean_output (py " {}  ") = str_strip (py " {}  ").
Proof.
  assert (Hb : backtick ∉ py " {}  ")
    by (apply (bool_decide_eq_false_1 _); vm_compute; reflexivity).
  split; [exact Hb|].
  exact (clean_output_without_backtick (py " {}  ") Hb).
Defined.

(** ** [allowed_file] on ASCII extensions *)

Lemma rsplit_last_app sep a b :
  sep ∉ b -> rsplit_last sep (a ++ sep :: b) = Some (a, b).
Proof. intros Hb. apply rsplit_last_some. auto. Qed.

(** X5: for a filename whose text after the last dot is ASCII, the answer
    depends on that text alone: the name is allowed exactly when the
    extension is [pdf] written in any mix of upper and lower case, whatever
    stands before the dot. *)
Theorem allowed_file_ascii_extension (lower : pystr -> pystr)
    (stem ext : pystr) :
  dot ∉ ext ->
  forallb is_ascii ext = true ->
  allowed_file lower (stem ++ dot :: ext)
  = Ok (bool_decide (ascii_lower <$> ext = py "pdf")).
Proof.
  intros Hd Ha. unfold allowed_file, str_rsplit1.
  assert (Hc : str_contains dot (stem ++ dot :: ext) = true).
  { apply str_contains_elem, elem_of_app. right. left. }
  rewrite Hc, (rsplit_last_app dot stem ext Hd). cbn [lookup list_lookup].
  unfold str_lower. rewrite Ha. f_equal.
  apply bool_decide_ext. unfold ALLOWED_EXTENSIONS.
  apply elem_of_singleton.
Qed.

Lemma allowed_file_ascii_extension_witness :
  (dot ∉ py "PdF")
  /\ forallb is_ascii (py "PdF") = true
  /\ allowed_file (fun s => s) (py "statement.2024" ++ dot :: py "PdF")
     = Ok (bool_decide (ascii_lower <$> py "PdF" = py "pdf")).
Proof.
  assert (Hd : dot ∉ py "PdF")
    by (apply (bool_decide_eq_false_1 _); vm_compute; reflexivity).
  split; [exact Hd|]. split; [reflexivity|].
  exact (allowed_file_ascii_extension (fun s => s) (py "statement.2024")
           (py "PdF") Hd eq_refl).
Defined.

(** ** What the validators accept *)

(** The code points of [py_isspace], listed. *)
Lemma py_isspace_cases c :
  py_isspace c = true ->
  c ∈ [ 0x09; 0x0a; 0x0b; 0x0c; 0x0d; 0x1c; 0x1d; 0x1e; 0x1f; 0x20; 0x85;
        0xa0; 0x1680; 0x2000; 0x2001; 0x2002; 0x2003; 0x2004; 0x2005;
        0x2006; 0x2007; 0x2008; 0x2009; 0x200a; 0x2028; 0x2029; 0x202f;
        0x205f; 0x3000 ].
Proof.
  unfold py_isspace, in_range. intros H.
  repeat (apply orb_true_iff in H as [H|H]);
    repeat (apply andb_true_iff in H as [? H]);
    repeat match goal with
           | Hx : (_ <=? _) = true |- _ => apply Z.leb_le in Hx
           | Hx : (_ =? _) = true |- _ => apply Z.eqb_eq in Hx
           end;
    apply list_elem_of_In; simpl; lia.
Qed.

Lemma space_is_not_decimal c : py_isspace c = true -> is_decimal c = false.
Proof.
  intros H. apply py_isspace_cases in H.
  repeat (apply elem_of_cons in H as [->|H]; [vm_compute; reflexivity|]).
  by apply elem_of_nil in H.
Qed.

Lemma decimal_is_not_space s c :
  forallb is_decimal s = true -> c ∈ s -> py_isspace c = false.
Proof.
  intros Hs Hc. rewrite forallb_forall in Hs.
  apply list_elem_of_In, Hs in Hc.
  destruct (py_isspace c) eqn:Hsp; [|reflexivity].
  apply space_is_not_decimal in Hsp. congruence.
Qed.

Lemma strip_by_no_space p s :
  (forall c, c ∈ s -> p c = false) -> strip_by p s = s.
Proof.
  intros H. destruct s as [|c s]; [reflexivity|].
  unfold strip_by. cbn [lstrip_by]. rewrite (H c) by left.
  destruct (exists_last (l := c :: s)) as (s' & x & Hs); [discriminate|].
  rewrite Hs. apply rstrip_by_snoc. apply H. rewrite Hs.
  apply elem_of_app. right. left.
Qed.

(** X6: neither validator trims its input.  A value it accepts holds no
    whitespace character at all, so stripping would not change it, and a
    value with whitespace before, inside or after is rejected. *)
Theorem accepted_values_have_no_whitespace (s : pystr) :
  validate_account (PStr s) = Ok true
  \/ validate_sort_code (PStr s) = Ok true ->
  (forall c, c ∈ s -> py_isspace c = false) /\ str_strip s = s.
Proof.
  intros H.
  assert (Hns : forall c, c ∈ s -> py_isspace c = false).
  { destruct H as [H|H].
    - rewrite validate_account_str in H. injection H as H.
      apply account_match in H as [_ Hd]. intros c. by apply decimal_is_not_space.
    - rewrite validate_sort_code_str in H. injection H as H.
      apply sort_code_match in H as (a & b & c & d & e & f & -> & Hd).
      intros x Hx.
      assert (Hx' : x = 0x2d \/ x ∈ [a; b; c; d; e; f]).
      { repeat (apply elem_of_cons in Hx as [Hx|Hx]);
          first [ by left | right; subst x; set_solver | by apply elem_of_nil in Hx ]. }
      destruct Hx' as [->|Hx']; [reflexivity|].
      by apply (decimal_is_not_space [a; b; c; d; e; f]). }
  split; [exact Hns|]. by apply strip_by_no_space.
Qed.

Lemma accepted_values_have_no_whitespace_witness :
  (validate_account (PStr (py "12345678")) = Ok true
   \/ validate_sort_code (PStr (py "12345678")) = Ok true)
  /\ (forall c, c ∈ py "12345678" -> py_isspace c = false)
  /\ str_strip (py "12345678") = py "12345678".
Proof.
  assert (H : validate_account (PStr (py "12345678")) = Ok true
              \/ validate_sort_code (PStr (py "12345678")) = Ok true)
    by (left; reflexivity).
  split; [exact H|].
  exact (accepted_values_have_no_whitespace (py "12345678") H).
Defined.

(** X7: the two formats exclude each other: on every string both
    validators answer, and never both with true. *)
Theorem account_and_sort_code_disjoint (s : pystr) :
  exists a b,
    validate_account (PStr s) = Ok a
    /\ validate_sort_code (PStr s) = Ok b
    /\ a && b = false.
Proof.
  rewrite validate_account_str, validate_sort_code_str.
  eexists _, _. do 2 (split; [reflexivity|]).
  destruct (re_match account_pattern s at_end) eqn:Ha; [|reflexivity].
  destruct (re_match sort_code_pattern s at_end) eqn:Hs; [|reflexivity].
  apply account_match in Ha as [_ Hd].
  apply sort_code_match in Hs as (a & b & c & d & e & f & -> & _).
  cbn [forallb] in Hd.
  repeat (apply andb_true_iff in Hd as [? Hd]). discriminate.
Qed.

(** ** [/parse-statement]: what a request touches *)

Lemma os_remove_effects E p w r w' :
  os_remove E p w = (r, w') ->
  (forall q, q <> p -> fs w' !! q = fs w !! q) /\ prompts w' = prompts w.
Proof.
  unfold os_remove. destruct (fs w !! p); [|by intros [= _ <-]].
  destruct (remove_error E (removals w) p); intros [= _ <-]; [done|].
  cbn [fs prompts]. split; [|done]. intros q Hq. by apply lookup_delete_ne.
Qed.

Ltac body_leaf :=
  intros [= _ <-]; cbn [fs prompts];
  split; [intros q Hq; by rewrite ?lookup_insert_ne by done | eauto].

Ltac remove_leaf Hrm :=
  intros [= _ <-]; apply os_remove_effects in Hrm as [Hfr Hpr];
  cbn [fs prompts] in Hfr, Hpr;
  split; [intros q Hq; rewrite Hfr by done; by rewrite ?lookup_insert_ne by done
         | rewrite Hpr; eauto].

Lemma parse_body_effects E file p w r w' :
  parse_body E file p w = (r, w') ->
  (forall q, q <> p -> fs w' !! q = fs w !! q)
  /\ (prompts w' = prompts w
      \/ exists text, prompts w' = prompts w ++ [build_prompt text]).
Proof.
  unfold parse_body. rewrite M_bind_eq.
  unfold file_save. destruct (save_error E p); [by intros [= _ <-]; auto|].
  rewrite M_bind_eq. unfold extract_text_from_pdf. cbn [fs].
  rewrite lookup_insert_eq, result_bind_eq.
  destruct (pdf_pages E (content file)) as [pages|]; [|body_leaf].
  destruct (extract_pages pages []) as [text|]; [|body_leaf].
  destruct (negb (truthy (PStr (str_strip text)))).
  - rewrite M_bind_eq.
    destruct (os_remove _ _ _) as [[[]|] w1] eqn:Hrm; remove_leaf Hrm.
  - rewrite M_bind_eq. unfold extract_bank_data_with_gemini, lift.
    destruct (generate_content E (build_prompt text)) as [out|]; [|body_leaf].
    rewrite M_bind_eq.
    destruct (parse_output E out) as [data|]; [|body_leaf].
    rewrite M_bind_eq.
    destruct (py_get data _ _) as [acc|]; [|body_leaf].
    rewrite M_bind_eq.
    destruct (validate_account acc) as [av|]; [|body_leaf].
    rewrite M_bind_eq.
    destruct (py_get data _ _) as [sc|]; [|body_leaf].
    rewrite M_bind_eq.
    destruct (validate_sort_code sc) as [sv|]; [|body_leaf].
    rewrite M_bind_eq.
    destruct (os_remove _ _ _) as [[[]|] w1] eqn:Hrm; remove_leaf Hrm.
Qed.

Lemma handle_exception_effects E fp e w r w' :
  handle_exception E fp e w = (r, w') ->
  (forall q, fp <> Some q -> fs w' !! q = fs w !! q)
  /\ prompts w' = prompts w
  /\ (forall resp, r = Ok resp ->
        resp = jsonify
                 (error_details E "An error occurred while processing the file" e)
                 500).
Proof.
  unfold handle_exception. destruct fp as [p|].
  - destruct (os_path_exists p w).
    + rewrite M_bind_eq. destruct (os_remove E p w) as [[[]|] w1] eqn:Hrm;
        intros [= <- <-]; apply os_remove_effects in Hrm as [Hfr Hpr];
        (split; [intros q Hq; apply Hfr; congruence|]);
        (split; [done|]); intros resp [= <-]; reflexivity.
    + intros [= <- <-]. repeat split. by intros resp [= <-].
  - intros [= <- <-]. repeat split. by intros resp [= <-].
Qed.

Lemma parse_statement_effects E req w :
  (forall q,
     (forall file, files_get (py "file") (files req) = Some file ->
                   q <> temp_path E file) ->
     fs (parse_statement E req w).2 !! q = fs w !! q)
  /\ (prompts (parse_statement E req w).2 = prompts w
      \/ exists text,
           prompts (parse_statement E req w).2
           = prompts w ++ [build_prompt text]).
Proof.
  destruct (Z.ltb_spec MAX_CONTENT_LENGTH (content_length req)) as [Hover|Hcap].
  { rewrite (parse_statement_over_cap E req w Hover). by auto. }
  rewrite (parse_statement_within_cap E req w Hcap). unfold parse_upload.
  destruct (files_get (py "file") (files req)) as [file|]; [|by auto].
  case_bool_decide; [by auto|].
  destruct (allowed_file (unicode_lower E) (filename file)) as [[|]|e].
  - fold (temp_path E file).
    destruct (parse_body E file (temp_path E file) w) as [r w1] eqn:Hb.
    apply parse_body_effects in Hb as [Hfr Hpr].
    assert (Hgen : forall e,
      (forall q, (forall f, Some file = Some f -> q <> temp_path E f) ->
         fs (handle_exception E (Some (temp_path E file)) e w1).2 !! q
         = fs w !! q)
      /\ (prompts (handle_exception E (Some (temp_path E file)) e w1).2
          = prompts w
          \/ exists text,
               prompts (handle_exception E (Some (temp_path E file)) e w1).2
               = prompts w ++ [build_prompt text])).
    { intros e.
      destruct (handle_exception E (Some (temp_path E file)) e w1)
        as [r2 w2] eqn:Hh.
      apply handle_exception_effects in Hh as (Hfr2 & Hpr2 & _). cbn [snd].
      split.
      - intros q Hq. specialize (Hq file eq_refl).
        rewrite Hfr2 by congruence. by apply Hfr.
      - by rewrite Hpr2. }
    destruct r as [resp|e]; [|destruct e; try apply Hgen]; cbn [snd];
      (split; [intros q Hq; apply Hfr, (Hq file eq_refl) | exact Hpr]).
  - by auto.
  - destruct (handle_exception E None e w) as [r2 w2] eqn:Hh.
    apply handle_exception_effects in Hh as (Hfr2 & Hpr2 & _). cbn [snd].
    split; [intros q _; by apply Hfr2 | by left].
Qed.

(** X8: a request calls the interpreter at most once, whatever happens:
    afterwards the log of prompts is unchanged or longer by the one prompt
    built from the extracted text. *)
Theorem interpreter_called_at_most_once (E : Env) (req : request)
    (w : world) :
  prompts (parse_statement E req w).2 = prompts w
  \/ exists text,
       prompts (parse_statement E req w).2 = prompts w ++ [build_prompt text].
Proof.
  destruct (parse_statement_effects E req w) as [_ Hprompts].
  exact Hprompts.
Qed.

(** X9: a request touches no file but its own temporary one: every path
    other than the upload's storage path holds after the request what it
    held before, on every exit of the handler. *)
Theorem other_files_untouched (E : Env) (req : request) (w : world)
    (q : pystr) :
  (forall file, files_get (py "file") (files req) = Some file ->
                q <> temp_path E file) ->
  fs (parse_statement E req w).2 !! q = fs w !! q.
Proof.
  intros Hq. destruct (parse_statement_effects E req w) as [Hframe _].
  by apply Hframe.
Qed.

Lemma other_files_untouched_witness :
  (forall file, files_get (py "file") (files pdf_upload) = Some file ->
                py "uploads/b.pdf" <> temp_path fenced_reply_env file)
  /\ fs (parse_statement fenced_reply_env pdf_upload
           (World {[ py "uploads/b.pdf" := py "kept" ]} [] 0)).2
       !! py "uploads/b.pdf"
     = fs (World {[ py "uploads/b.pdf" := py "kept" ]} [] 0) !! py "uploads/b.pdf".
Proof.
  assert (H : forall file,
             files_get (py "file") (files pdf_upload) = Some file ->
             py "uploads/b.pdf" <> temp_path fenced_reply_env file).
  { intros file [= <-]. vm_compute. discriminate. }
  split; [exact H|].
  exact (other_files_untouched fenced_reply_env pdf_upload
           (World {[ py "uploads/b.pdf" := py "kept" ]} [] 0)
           (py "uploads/b.pdf") H).
Defined.

(** ** [/parse-statement]: the answers *)

(** X10: an answer of the handler is never both a payload and an error.
    Either its status is 200 and the body has [success = true], the data
    and no [error] field, or its status is 400 or 500 and the body has an
    [error] message and neither [success] nor [data]. *)
Theorem payload_or_error (E : Env) (req : request) (w w' : world)
    (resp : response) :
  parse_statement E req w = (Ok resp, w') ->
  (status resp = 200
   /\ body_get (py "success") resp = Some (PBool true)
   /\ is_Some (body_get (py "data") resp)
   /\ body_get (py "error") resp = None)
  \/ ((status resp = 400 \/ status resp = 500)
      /\ (exists msg, body_get (py "error") resp = Some (PStr msg))
      /\ body_get (py "success") resp = None
      /\ body_get (py "data") resp = None).
Proof.
  destruct (Z.ltb_spec MAX_CONTENT_LENGTH (content_length req)) as [Hover|Hcap].
  { rewrite (parse_statement_over_cap E req w Hover).
    intros [= <- _]. right. repeat split; eauto. }
  rewrite (parse_statement_within_cap E req w Hcap). unfold parse_upload.
  destruct (files_get (py "file") (files req)) as [file|];
    [|intros [= <- _]; right; repeat split; eauto].
  case_bool_decide; [intros [= <- _]; right; repeat split; eauto|].
  destruct (allowed_file (unicode_lower E) (filename file)) as [[|]|e].
  - fold (temp_path E file).
    destruct (parse_body E file (temp_path E file) w) as [[r|e] w1] eqn:Hb.
    + intros [= <- <-].
      apply parse_body_ok_inv in Hb
        as (pages & text & _ & _ & _ & [(_ & -> & _) | Hok]).
      * right. repeat split; eauto.
      * destruct Hok as (out & d & av & sv & _ & _ & _ & _ & -> & _).
        left. repeat split; eauto.
    + assert (Hgen : handle_exception E (Some (temp_path E file)) e w1
                     = (Ok resp, w') ->
                     (status resp = 400 \/ status resp = 500)
                     /\ (exists msg, body_get (py "error") resp = Some (PStr msg))
                     /\ body_get (py "success") resp = None
                     /\ body_get (py "data") resp = None).
      { intros Hh. apply handle_exception_effects in Hh as (_ & _ & Hr).
        rewrite (Hr resp eq_refl). repeat split; eauto. }
      destruct e; try (intros Hh; right; by apply Hgen).
      intros [= <- _]. right. repeat split; eauto.
  - intros [= <- _]. right. repeat split; eauto.
  - intros Hh. apply handle_exception_effects in Hh as (_ & _ & Hr).
    rewrite (Hr resp eq_refl). right. repeat split; eauto.
Qed.

Lemma payload_or_error_witness :
  parse_statement fenced_reply_env pdf_upload empty_world
    = (Ok success_answer, world_after_success)
  /\ ((status success_answer = 200
       /\ body_get (py "success") success_answer = Some (PBool true)
       /\ is_Some (body_get (py "data") success_answer)
       /\ body_get (py "error") success_answer = None)
      \/ ((status success_answer = 400 \/ status success_answer = 500)
          /\ (exists msg,
                body_get (py "error") success_answer = Some (PStr msg))
          /\ body_get (py "success") success_answer = None
          /\ body_get (py "data") success_answer = None)).
Proof.
  assert (H : parse_statement fenced_reply_env pdf_upload empty_world
              = (Ok success_answer, world_after_success)).
  { vm_compute. reflexivity. }
  split; [exact H|].
  exact (payload_or_error fenced_reply_env pdf_upload empty_world
           world_after_success success_answer H).
Defined.

(** ** [/parse-statement]: the error paths and the success path *)

Lemma handle_exception_after_store E file e w ps n :
  remove_error E n (temp_path E file) = None ->
  handle_exception E (Some (temp_path E file)) e
    (World (fs_stored E file w) ps n)
  = (Ok (jsonify
           (error_details E "An error occurred while processing the file" e)
           500),
     World (fs_removed E file w) ps (S n)).
Proof.
  intros Hr. unfold handle_exception, os_path_exists, fs_stored. cbn [fs].
  rewrite lookup_insert_eq, bool_decide_eq_true_2 by eauto.
  rewrite M_bind_eq. unfold os_remove. cbn [fs removals].
  by rewrite lookup_insert_eq, Hr.
Qed.

(** The generic branch is the one taken for every error but
    [JSONDecodeError]. *)
Lemma parse_statement_generic_error E req file w e w1 :
  accepted E req file ->
  is_json_error e = false ->
  parse_body E file (temp_path E file) w = (Raise e, w1) ->
  parse_statement E req w = handle_exception E (Some (temp_path E file)) e w1.
Proof.
  intros Hacc He Hb. rewrite (parse_statement_accepted E req file w Hacc), Hb.
  by destruct e.
Qed.

Ltac run_store Hs :=
  unfold parse_body; rewrite M_bind_eq; unfold file_save; rewrite Hs;
  rewrite M_bind_eq; unfold extract_text_from_pdf; cbn [fs];
  rewrite lookup_insert_eq, result_bind_eq.

Ltac run_prompt Hs Hp He Hne :=
  run_store Hs; rewrite Hp, He;
  unfold truthy; rewrite (bool_decide_eq_false_2 _ Hne); cbn [negb];
  rewrite M_bind_eq; unfold extract_bank_data_with_gemini, lift.

(** X11: when the stored upload cannot be read as a PDF, or one of its
    pages fails to give its text, the handler answers 500 with the generic
    message and the error's text, removes the stored file and does not call
    the interpreter. *)
Theorem unreadable_pdf_is_reported (E : Env) (req : request) (file : upload)
    (w : world) (e : exn) :
  accepted E req file ->
  save_error E (temp_path E file) = None ->
  remove_error E (removals w) (temp_path E file) = None ->
  is_json_error e = false ->
  (pdf_pages E (content file) = Raise e
   \/ exists pages, pdf_pages E (content file) = Ok pages
                    /\ extract_pages pages [] = Raise e) ->
  parse_statement E req w
  = (Ok (jsonify
           (error_details E "An error occurred while processing the file" e)
           500),
     World (fs_removed E file w) (prompts w) (S (removals w))).
Proof.
  intros Hacc Hs Hr Hje Hpdf.
  rewrite (parse_statement_generic_error E req file w e
             (World (fs_stored E file w) (prompts w) (removals w)) Hacc Hje).
  - by apply handle_exception_after_store.
  - run_store Hs. destruct Hpdf as [Hp | (pages & Hp & He)].
    + by rewrite Hp.
    + by rewrite Hp, He.
Qed.

(** X12: when the interpreter call fails, the handler answers 500 with the
    generic message and the error's text; the stored file is removed and
    the one prompt has been sent. *)
Theorem interpreter_failure_is_reported (E : Env) (req : request)
    (file : upload) (w : world) (text : pystr) (e : exn) :
  stored_text E req file text ->
  str_strip text <> [] ->
  remove_error E (removals w) (temp_path E file) = None ->
  is_json_error e = false ->
  generate_content E (build_prompt text) = Raise e ->
  parse_statement E req w
  = (Ok (jsonify
           (error_details E "An error occurred while processing the file" e)
           500),
     World (fs_removed E file w) (prompts w ++ [build_prompt text])
       (S (removals w))).
Proof.
  intros (Hacc & Hs & pages & Hp & He) Hne Hr Hje Hg.
  rewrite (parse_statement_generic_error E req file w e
             (World (fs_stored E file w) (prompts w ++ [build_prompt text])
                (removals w))
             Hacc Hje).
  - by apply handle_exception_after_store.
  - run_prompt Hs Hp He Hne. by rewrite Hg.
Qed.

(** X13: when the cleaned reply is not JSON, the handler answers 500 with
    [Failed to parse AI response as JSON] and the decoder's message.  The
    interpreter has been called once and is not called again; this branch
    does not remove the stored file. *)
Theorem invalid_json_is_reported (E : Env) (req : request) (file : upload)
    (w : world) (text out msg : pystr) :
  stored_text E req file text ->
  str_strip text <> [] ->
  generate_content E (build_prompt text) = Ok out ->
  parse_output E out = Raise (JSONDecodeError msg) ->
  parse_statement E req w
  = (Ok (jsonify
           (error_details E "Failed to parse AI response as JSON"
              (JSONDecodeError msg))
           500),
     World (fs_stored E file w) (prompts w ++ [build_prompt text])
       (removals w)).
Proof.
  intros (Hacc & Hs & pages & Hp & He) Hne Hg Hd.
  rewrite (parse_statement_accepted E req file w Hacc).
  run_prompt Hs Hp He Hne. rewrite Hg, M_bind_eq, Hd. reflexivity.
Qed.

(** X14: a reply that is JSON but not an object (a list, a string, a
    number, [null]) is not a parse failure: reading its fields raises
    [AttributeError], so the handler answers 500 with the generic message
    and removes the stored file. *)
Theorem non_object_reply_is_reported (E : Env) (req : request) (file : upload)
    (w : world) (text out : pystr) (data : pyval) :
  stored_text E req file text ->
  str_strip text <> [] ->
  remove_error E (removals w) (temp_path E file) = None ->
  generate_content E (build_prompt text) = Ok out ->
  parse_output E out = Ok data ->
  (forall d, data <> PDict d) ->
  parse_statement E req w
  = (Ok (jsonify
           (error_details E "An error occurred while processing the file"
              AttributeError)
           500),
     World (fs_removed E file w) (prompts w ++ [build_prompt text])
       (S (removals w))).
Proof.
  intros (Hacc & Hs & pages & Hp & He) Hne Hr Hg Hd Hnd.
  rewrite (parse_statement_generic_error E req file w AttributeError
             (World (fs_stored E file w) (prompts w ++ [build_prompt text])
                (removals w))
             Hacc eq_refl).
  - by apply handle_exception_after_store.
  - run_prompt Hs Hp He Hne. rewrite Hg, M_bind_eq, Hd, M_bind_eq.
    destruct data; try reflexivity. by destruct (Hnd d).
Qed.

(** X15: the success path, forwards.  When the text is not blank, the
    interpreter replies, the cleaned reply parses to an object whose
    [account_number] and [sort_code] are strings or absent, and the removal
    succeeds, the handler answers 200; the stored file is gone and exactly
    one prompt was sent. *)
Theorem well_formed_reply_succeeds (E : Env) (req : request) (file : upload)
    (w : world) (text out : pystr) (d : list (pystr * pyval)) :
  stored_text E req file text ->
  str_strip text <> [] ->
  remove_error E (removals w) (temp_path E file) = None ->
  generate_content E (build_prompt text) = Ok out ->
  parse_output E out = Ok (PDict d) ->
  str_field (py "account_number") d ->
  str_field (py "sort_code") d ->
  exists resp,
    parse_statement E req w
    = (Ok resp,
       World (fs_removed E file w) (prompts w ++ [build_prompt text])
         (S (removals w)))
    /\ status resp = 200
    /\ body_get (py "data") resp = Some (PDict d)
    /\ body_get (py "extracted_text_preview") resp = Some (PStr (take 500 text)).
Proof.
  intros (Hacc & Hs & pages & Hp & He) Hne Hr Hg Hd Ha Hsc.
  assert (Hav : exists s, default (PStr []) (assoc_get (py "account_number") d)
                          = PStr s).
  { destruct Ha as [-> | (s & ->)]; eauto. }
  assert (Hsv : exists s, default (PStr []) (assoc_get (py "sort_code") d)
                          = PStr s).
  { destruct Hsc as [-> | (s & ->)]; eauto. }
  destruct Hav as (a & Hav), Hsv as (s & Hsv).
  rewrite (parse_statement_accepted E req file w Hacc).
  run_prompt Hs Hp He Hne. rewrite Hg, M_bind_eq, Hd, M_bind_eq.
  cbn [py_get]. rewrite Hav, Hsv, validate_account_str, M_bind_eq, M_bind_eq.
  rewrite validate_sort_code_str, M_bind_eq, M_bind_eq.
  unfold os_remove. cbn [fs prompts removals]. rewrite lookup_insert_eq, Hr.
  eexists. split; [reflexivity|]. repeat split.
Qed.

Lemma pdf_upload_accepted reader interpreter :
  accepted (env_with reader interpreter) pdf_upload pdf_file.
Proof.
  split; [by vm_compute|]. split; [reflexivity | split; [discriminate | reflexivity]].
Qed.

Lemma pdf_upload_stored reply locked :
  stored_text (test_env reply locked) pdf_upload pdf_file hello_text.
Proof.
  split; [by apply accepted_upload_request|]. split; [reflexivity|].
  by exists [Ok (Some (py "hello"))].
Qed.

Lemma hello_text_not_blank : str_strip hello_text <> [].
Proof. discriminate. Qed.

Lemma unreadable_pdf_is_reported_witness :
  accepted broken_pdf_env pdf_upload pdf_file
  /\ save_error broken_pdf_env (temp_path broken_pdf_env pdf_file) = None
  /\ remove_error broken_pdf_env (removals empty_world)
       (temp_path broken_pdf_env pdf_file) = None
  /\ is_json_error pdf_error = false
  /\ (pdf_pages broken_pdf_env (content pdf_file) = Raise pdf_error
      \/ exists pages,
           pdf_pages broken_pdf_env (content pdf_file) = Ok pages
           /\ extract_pages pages [] = Raise pdf_error)
  /\ parse_statement broken_pdf_env pdf_upload empty_world
     = (Ok (jsonify
              (error_details broken_pdf_env
                 "An error occurred while processing the file" pdf_error)
              500),
        World (fs_removed broken_pdf_env pdf_file empty_world)
          (prompts empty_world) (S (removals empty_world))).
Proof.
  split; [apply pdf_upload_accepted|]. do 3 (split; [reflexivity|]).
  split; [by left|].
  exact (unreadable_pdf_is_reported broken_pdf_env pdf_upload pdf_file
           empty_world pdf_error (pdf_upload_accepted _ _) eq_refl eq_refl
           eq_refl (or_introl eq_refl)).
Defined.

Lemma interpreter_failure_is_reported_witness :
  stored_text failing_interpreter_env pdf_upload pdf_file hello_text
  /\ str_strip hello_text <> []
  /\ remove_error failing_interpreter_env (removals empty_world)
       (temp_path failing_interpreter_env pdf_file) = None
  /\ is_json_error quota_error = false
  /\ generate_content failing_interpreter_env (build_prompt hello_text)
     = Raise quota_error
  /\ parse_statement failing_interpreter_env pdf_upload empty_world
     = (Ok (jsonify
              (error_details failing_interpreter_env
                 "An error occurred while processing the file" quota_error)
              500),
        World (fs_removed failing_interpreter_env pdf_file empty_world)
          (prompts empty_world ++ [build_prompt hello_text])
          (S (removals empty_world))).
Proof.
  assert (Hst : stored_text failing_interpreter_env pdf_upload pdf_file
                  hello_text).
  { split; [apply pdf_upload_accepted|]. split; [reflexivity|].
    by exists [Ok (Some (py "hello"))]. }
  split; [exact Hst|]. split; [exact hello_text_not_blank|].
  do 3 (split; [reflexivity|]).
  exact (interpreter_failure_is_reported failing_interpreter_env pdf_upload
           pdf_file empty_world hello_text quota_error Hst
           hello_text_not_blank eq_refl eq_refl eq_refl).
Defined.

Lemma invalid_json_is_reported_witness :
  stored_text prose_reply_env pdf_upload pdf_file hello_text
  /\ str_strip hello_text <> []
  /\ generate_content prose_reply_env (build_prompt hello_text)
     = Ok (py "Sorry, no data.")
  /\ parse_output prose_reply_env (py "Sorry, no data.")
     = Raise (JSONDecodeError (py "Expecting value"))
  /\ parse_statement prose_reply_env pdf_upload empty_world
     = (Ok (jsonify
              (error_details prose_reply_env
                 "Failed to parse AI response as JSON"
                 (JSONDecodeError (py "Expecting value")))
              500),
        World (fs_stored prose_reply_env pdf_file empty_world)
          (prompts empty_world ++ [build_prompt hello_text])
          (removals empty_world)).
Proof.
  split; [apply pdf_upload_stored|]. split; [exact hello_text_not_blank|].
  do 2 (split; [reflexivity|]).
  exact (invalid_json_is_reported prose_reply_env pdf_upload pdf_file
           empty_world hello_text (py "Sorry, no data.") (py "Expecting value")
           (pdf_upload_stored _ _) hello_text_not_blank eq_refl eq_refl).
Defined.

Lemma non_object_reply_is_reported_witness :
  stored_text list_reply_env pdf_upload pdf_file hello_text
  /\ str_strip hello_text <> []
  /\ remove_error list_reply_env (removals empty_world)
       (temp_path list_reply_env pdf_file) = None
  /\ generate_content list_reply_env (build_prompt hello_text) = Ok (py "[]")
  /\ parse_output list_reply_env (py "[]") = Ok (PList [])
  /\ (forall d, PList [] <> PDict d)
  /\ parse_statement list_reply_env pdf_upload empty_world
     = (Ok (jsonify
              (error_details list_reply_env
                 "An error occurred while processing the file" AttributeError)
              500),
        World (fs_removed list_reply_env pdf_file empty_world)
          (prompts empty_world ++ [build_prompt hello_text])
          (S (removals empty_world))).
Proof.
  assert (Hnd : forall d, PList [] <> PDict d) by discriminate.
  split; [apply pdf_upload_stored|]. split; [exact hello_text_not_blank|].
  do 3 (split; [reflexivity|]). split; [exact Hnd|].
  exact (non_object_reply_is_reported list_reply_env pdf_upload pdf_file
           empty_world hello_text (py "[]") (PList [])
           (pdf_upload_stored _ _) hello_text_not_blank eq_refl eq_refl
           eq_refl Hnd).
Defined.

Lemma well_formed_reply_succeeds_witness :
  stored_text fenced_reply_env pdf_upload pdf_file hello_text
  /\ str_strip hello_text <> []
  /\ remove_error fenced_reply_env (removals empty_world)
       (temp_path fenced_reply_env pdf_file) = None
  /\ generate_content fenced_reply_env (build_prompt hello_text)
     = Ok (fence (py "{}"))
  /\ parse_output fenced_reply_env (fence (py "{}")) = Ok (PDict [])
  /\ str_field (py "account_number") []
  /\ str_field (py "sort_code") []
  /\ exists resp,
       parse_statement fenced_reply_env pdf_upload empty_world
       = (Ok resp,
          World (fs_removed fenced_reply_env pdf_file empty_world)
            (prompts empty_world ++ [build_prompt hello_text])
            (S (removals empty_world)))
       /\ status resp = 200
       /\ body_get (py "data") resp = Some (PDict [])
       /\ body_get (py "extracted_text_preview") resp
          = Some (PStr (take 500 hello_text)).
Proof.
  split; [apply pdf_upload_stored|]. split; [exact hello_text_not_blank|].
  do 3 (split; [reflexivity|]). do 2 (split; [by left|]).
  exact (well_formed_reply_succeeds fenced_reply_env pdf_upload pdf_file
           empty_world hello_text (fence (py "{}")) []
           (pdf_upload_stored _ _) hello_text_not_blank eq_refl eq_refl
           eq_refl (or_introl eq_refl) (or_introl eq_refl)).
Defined.

(** ** [/validate]: every body *)

Lemma validator_needs_str v :
  (exists s, v = PStr s)
  \/ (validate_account v = Raise TypeError
      /\ validate_sort_code v = Raise TypeError).
Proof. destruct v; eauto. Qed.

Lemma str_field_default k d :
  str_field k d <-> exists s, default (PStr []) (assoc_get k d) = PStr s.
Proof.
  unfold str_field. destruct (assoc_get k d) as [v|]; simpl.
  - split.
    + intros [H | (s & [= ->])]; [discriminate | eauto].
    + intros (s & ->). eauto.
  - split; eauto.
Qed.

(** The handler on a body that is a non-empty object. *)
Lemma validate_data_object E req kv d :
  get_json req = Ok (PDict (kv :: d)) ->
  validate_data E req =
    match validate_account
            (default (PStr []) (assoc_get (py "account_number") (kv :: d))),
          validate_sort_code
            (default (PStr []) (assoc_get (py "sort_code") (kv :: d))) with
    | Ok av, Ok sv =>
        jsonify
          (PDict [ (py "account_number",
                     default (PStr []) (assoc_get (py "account_number") (kv :: d)));
                   (py "account_valid", PBool av);
                   (py "sort_code",
                     default (PStr []) (assoc_get (py "sort_code") (kv :: d)));
                   (py "sort_code_valid", PBool sv) ])
          200
    | Raise e, _ => jsonify (error_details E "Validation failed" e) 500
    | Ok _, Raise e => jsonify (error_details E "Validation failed" e) 500
    end.
Proof.
  intros Hj. unfold validate_data. rewrite Hj.
  cbv [mbind result_bind truthy negb py_get mret result_ret].
  destruct (validate_account _); [|reflexivity].
  destruct (validate_sort_code _); reflexivity.
Qed.

Lemma validate_data_falsy E req data :
  get_json req = Ok data -> truthy data = false ->
  validate_data E req = jsonify (error_body "No JSON data provided") 400.
Proof.
  intros Hj Ht. unfold validate_data. rewrite Hj.
  cbv [mbind result_bind]. by rewrite Ht.
Qed.

Lemma validate_data_non_object E req data :
  get_json req = Ok data -> truthy data = true ->
  (forall d, data <> PDict d) ->
  validate_data E req
  = jsonify (error_details E "Validation failed" AttributeError) 500.
Proof.
  intros Hj Ht Hnd. unfold validate_data. rewrite Hj.
  cbv [mbind result_bind]. rewrite Ht. cbn [negb].
  destruct data; try reflexivity. by destruct (Hnd d).
Qed.

Lemma validate_data_no_json E req e :
  get_json req = Raise e ->
  validate_data E req = jsonify (error_details E "Validation failed" e) 500.
Proof. intros Hj. unfold validate_data. by rewrite Hj. Qed.

(** X16: which bodies [/validate] accepts.  The answer is 200 exactly when
    the body is a non-empty JSON object whose [account_number] and
    [sort_code] are each a string or absent; it is 400 exactly when the body
    is falsy ([null], [false], zero, the empty string, list or object); in
    every other case, a failing [get_json] included, it is 500. *)
Theorem validate_data_status (E : Env) (req : request) :
  (status (validate_data E req) = 200 <->
   exists d, get_json req = Ok (PDict d) /\ d <> []
             /\ str_field (py "account_number") d
             /\ str_field (py "sort_code") d)
  /\ (status (validate_data E req) = 400 <->
      exists data, get_json req = Ok data /\ truthy data = false)
  /\ (status (validate_data E req) = 200
      \/ status (validate_data E req) = 400
      \/ status (validate_data E req) = 500).
Proof.
  destruct (get_json req) as [data|e] eqn:Hj.
  - destruct (truthy data) eqn:Ht.
    + assert (H400 : ~ exists data', Ok data = Ok data'
                                     /\ truthy data' = false).
      { intros (data' & [= <-] & Ht'). congruence. }
      assert (Hobj : (exists kv d, data = PDict (kv :: d))
                     \/ forall d, data <> PDict d).
      { destruct data as [| | | | | |[|kv d]];
          [right; discriminate.. | discriminate Ht | left; eauto]. }
      destruct Hobj as [(kv & d & ->) | Hnd].
      * rewrite (validate_data_object E req kv d Hj).
        destruct (validator_needs_str
                    (default (PStr [])
                       (assoc_get (py "account_number") (kv :: d))))
          as [(a & Ha) | [Ha _]].
        -- destruct (validator_needs_str
                       (default (PStr [])
                          (assoc_get (py "sort_code") (kv :: d))))
             as [(s & Hs) | [_ Hs]].
           ++ rewrite Ha, Hs, validate_account_str, validate_sort_code_str.
              cbn [status jsonify].
              split; [|split; [split; [discriminate | by intros ?] | by left]].
              split; [|reflexivity]. intros _. exists (kv :: d).
              rewrite !str_field_default, Ha, Hs. repeat split; eauto.
           ++ rewrite Ha, validate_account_str, Hs. cbn [status jsonify].
              split; [|split; [split; [discriminate | by intros ?] | auto]].
              split; [discriminate|].
              intros (d' & [= <-] & _ & _ & Hs').
              apply str_field_default in Hs' as (s & Hs').
              rewrite Hs' in Hs. discriminate.
        -- rewrite Ha. cbn [status jsonify].
           split; [|split; [split; [discriminate | by intros ?] | auto]].
           split; [discriminate|].
           intros (d' & [= <-] & _ & Ha' & _).
           apply str_field_default in Ha' as (a & Ha').
           rewrite Ha' in Ha. discriminate.
      * rewrite (validate_data_non_object E req data Hj Ht Hnd).
        cbn [status jsonify].
        split; [|split; [split; [discriminate | by intros ?] | auto]].
        split; [discriminate|]. intros (d & [= ->] & _). by destruct (Hnd d).
    + rewrite (validate_data_falsy E req data Hj Ht). cbn [status jsonify].
      split; [|split; [split; eauto | auto]].
      split; [discriminate|]. intros (d & [= ->] & Hd & _). by destruct d.
  - rewrite (validate_data_no_json E req e Hj). cbn [status jsonify].
    split; [|split; [|auto]].
    + split; [discriminate|]. intros (d & Hd & _). discriminate.
    + split; [discriminate|]. intros (d & Hd & _). discriminate.
Qed.

(** X17: when [/validate] accepts a body, it echoes the two values as they
    came, unstripped, the empty string for an absent one, and each boolean
    is what the format says: true for eight decimal digits, respectively
    for [DD-DD-DD]. *)
Theorem validate_data_echoes (E : Env) (req : request)
    (d : list (pystr * pyval)) (a s : pystr) :
  get_json req = Ok (PDict d) ->
  d <> [] ->
  default (PStr []) (assoc_get (py "account_number") d) = PStr a ->
  default (PStr []) (assoc_get (py "sort_code") d) = PStr s ->
  exists av sv,
    validate_data E req
    = jsonify
        (PDict [ (py "account_number", PStr a);
                 (py "account_valid", PBool av);
                 (py "sort_code", PStr s);
                 (py "sort_code_valid", PBool sv) ])
        200
    /\ (av = true <-> length a = 8%nat /\ forallb is_decimal a = true)
    /\ (sv = true <-> sort_code_shape s).
Proof.
  intros Hj Hne Ha Hs. destruct d as [|kv d]; [done|].
  rewrite (validate_data_object E req kv d Hj), Ha, Hs.
  rewrite validate_account_str, validate_sort_code_str.
  eexists _, _. split; [reflexivity|].
  split; [apply account_match | apply sort_code_match].
Qed.

Lemma validate_data_echoes_witness :
  get_json (json_request
              (PDict [(py "account_number", PStr (py " 12345678"))]))
    = Ok (PDict [(py "account_number", PStr (py " 12345678"))])
  /\ [(py "account_number", PStr (py " 12345678"))] <> []
  /\ default (PStr [])
       (assoc_get (py "account_number")
          [(py "account_number", PStr (py " 12345678"))])
     = PStr (py " 12345678")
  /\ default (PStr [])
       (assoc_get (py "sort_code")
          [(py "account_number", PStr (py " 12345678"))])
     = PStr []
  /\ exists av sv,
       validate_data (test_env [] [])
         (json_request (PDict [(py "account_number", PStr (py " 12345678"))]))
       = jsonify
           (PDict [ (py "account_number", PStr (py " 12345678"));
                    (py "account_valid", PBool av);
                    (py "sort_code", PStr []);
                    (py "sort_code_valid", PBool sv) ])
           200
       /\ (av = true <->
           length (py " 12345678") = 8%nat
           /\ forallb is_decimal (py " 12345678") = true)
       /\ (sv = true <-> sort_code_shape []).
Proof.
  split; [reflexivity|]. split; [discriminate|]. do 2 (split; [reflexivity|]).
  apply (validate_data_echoes (test_env [] [])
           (json_request (PDict [(py "account_number", PStr (py " 12345678"))]))
           [(py "account_number", PStr (py " 12345678"))]
           (py " 12345678") []); [reflexivity | discriminate | reflexivity..].
Defined.

(** ** [/parse-statement]: the size cap *)

(** X19: a request whose body is larger than [MAX_CONTENT_LENGTH] gets the
    generic 500 answer with the text of [RequestEntityTooLarge], whatever
    its form holds: reading [request.files] raises inside the [try].
    Nothing is written and the interpreter is not called. *)
Theorem oversize_body_gets_generic_500 (E : Env) (req : request) (w : world) :
  MAX_CONTENT_LENGTH < content_length req ->
  parse_statement E req w
  = (Ok (jsonify
           (error_details E "An error occurred while processing the file"
              too_large)
           500), w).
Proof.
  intros Hover. unfold parse_statement, request_files.
  destruct (Z.ltb_spec MAX_CONTENT_LENGTH (content_length req)); [|lia].
  reflexivity.
Qed.

Lemma oversize_body_gets_generic_500_witness :
  MAX_CONTENT_LENGTH < content_length (oversize_request (py "a.pdf") (py "hello"))
  /\ parse_statement (test_env [] []) (oversize_request (py "a.pdf") (py "hello"))
       empty_world
     = (Ok (jsonify
              (error_details (test_env [] [])
                 "An error occurred while processing the file" too_large)
              500), empty_world).
Proof.
  assert (H : MAX_CONTENT_LENGTH
              < content_length (oversize_request (py "a.pdf") (py "hello")))
    by (by vm_compute).
  split; [exact H|].
  exact (oversize_body_gets_generic_500 (test_env [] [])
           (oversize_request (py "a.pdf") (py "hello")) empty_world H).
Defined.
